(** * Node-BoilerPlate: registration, login and the CSRF guard

    A shallow embedding of the two source files of the boilerplate:

    - the application entry point (helmet, rate limiter, CORS, session,
      CSRF set-up, routes), of which the CSRF bootstrap middleware and
      the order of the [app.use] calls are modelled;
    - [UserController] with its methods [create], [login],
      [validateUser] and [validateUserData].

    JavaScript values are modelled by the inductive [value]; thrown
    exceptions by the [Throw] case of [completion]; the user store and
    the session store are passed explicitly.  Third-party packages
    ([jsonwebtoken], [csrf-csrf], [express], [express-session]) are
    modelled after their documented behaviour, as far as the controller
    and the pipeline rely on it. *)

From Stdlib Require Import ZArith Ascii String List.
From stdpp Require Import gmap strings list fin_maps pretty.

Local Open Scope Z_scope.
Local Open Scope string_scope.

(** ** JavaScript values *)

Module JS.

(** A JavaScript string is a sequence of UTF-16 code units; the model
    carries the code units below 256, one [ascii] each, so that
    [String.length] is the [length] property. *)

(** The scalars a parsed JSON or url-encoded body field, a record
    field or an environment variable can hold.  Numbers are the
    integral ones.  Arrays and objects as field values are outside the
    model: what is stated of a body is stated of bodies whose fields
    are absent or scalars. *)
Inductive value : Type :=
| VUndefined
| VNull
| VBool (b : bool)
| VNum (n : Z)
| VStr (s : string).

#[global] Instance value_eq_dec : EqDecision value.
Proof. solve_decision. Defined.

(** A plain object: its own enumerable properties, in insertion order. *)
Definition obj : Type := list (string * value).

(** [o.k]: the first own property named [k], [undefined] when there is
    none. *)
Fixpoint get (k : string) (o : obj) : value :=
  match o with
  | [] => VUndefined
  | (k', v) :: o' => if String.eqb k k' then v else get k o'
  end.

(** [delete o.k] *)
Fixpoint delete_prop (k : string) (o : obj) : obj :=
  match o with
  | [] => []
  | (k', v) :: o' =>
      if String.eqb k k' then delete_prop k o' else (k', v) :: delete_prop k o'
  end.

(** ToBoolean *)
Definition truthy (v : value) : bool :=
  match v with
  | VUndefined | VNull => false
  | VBool b => b
  | VNum n => negb (Z.eqb n 0)
  | VStr s => negb (String.eqb s "")
  end.

(** [a || b] *)
Definition or_else (a b : value) : value := if truthy a then a else b.

(** ToString *)
Definition to_string (v : value) : string :=
  match v with
  | VUndefined => "undefined"
  | VNull => "null"
  | VBool true => "true"
  | VBool false => "false"
  | VNum n => pretty n
  | VStr s => s
  end.

(** Exceptions: the constructor name and the [message] property. *)
Record error : Type := Error_ { err_name : string; err_message : string }.

#[global] Instance error_eq_dec : EqDecision error.
Proof. solve_decision. Defined.

Definition mkError (msg : string) : error := Error_ "Error" msg.
Definition TypeError (msg : string) : error := Error_ "TypeError" msg.
Definition ReferenceError (msg : string) : error := Error_ "ReferenceError" msg.

(** The outcome of evaluating an expression or awaiting a promise:
    a value, or a thrown exception (a rejected promise). *)
Inductive completion (A : Type) : Type :=
| Normal (a : A)
| Throw (e : error).
Arguments Normal {A} a.
Arguments Throw {A} e.

(** [v.length] of a scalar: a number for a string, [undefined]
    ([None]) for a boolean or a number, a TypeError for [undefined] and
    [null]. *)
Definition get_length (v : value) : completion (option Z) :=
  match v with
  | VUndefined =>
      Throw (TypeError "Cannot read properties of undefined (reading 'length')")
  | VNull =>
      Throw (TypeError "Cannot read properties of null (reading 'length')")
  | VStr s => Normal (Some (Z.of_nat (String.length s)))
  | VBool _ | VNum _ => Normal None
  end.

(** [len < n] for a number literal [n]: [undefined] converts to NaN,
    and every comparison with NaN is false. *)
Definition lt_number (len : option Z) (n : Z) : bool :=
  match len with
  | Some m => Z.ltb m n
  | None => false
  end.

End JS.
Export JS.

(** ** Regular expressions

    The email pattern of [validateUserData] is a regular expression
    literal; it is kept as a syntax tree and run by derivatives.  [^]
    and [$] without the [m] flag anchor the match to the whole
    string, which is what [matches] decides. *)

Module Regex.

Inductive regex : Type :=
| Void
| Eps
| Class (p : ascii -> bool)
| Cat (r s : regex)
| Alt (r s : regex)
| Star (r : regex).

(** [r+] *)
Definition Plus (r : regex) : regex := Cat r (Star r).

Fixpoint nullable (r : regex) : bool :=
  match r with
  | Void => false
  | Eps => true
  | Class _ => false
  | Cat r s => nullable r && nullable s
  | Alt r s => nullable r || nullable s
  | Star _ => true
  end.

Fixpoint deriv (c : ascii) (r : regex) : regex :=
  match r with
  | Void | Eps => Void
  | Class p => if p c then Eps else Void
  | Cat r s =>
      if nullable r then Alt (Cat (deriv c r) s) (deriv c s)
      else Cat (deriv c r) s
  | Alt r s => Alt (deriv c r) (deriv c s)
  | Star r => Cat (deriv c r) (Star r)
  end.

Fixpoint matches (r : regex) (s : string) : bool :=
  match s with
  | EmptyString => nullable r
  | String c s' => matches (deriv c r) s'
  end.

(** The language of a regular expression, to state what [matches]
    decides. *)
Inductive lang : regex -> string -> Prop :=
| lang_eps : lang Eps ""
| lang_class p c : p c = true -> lang (Class p) (String c "")
| lang_cat r s u v : lang r u -> lang s v -> lang (Cat r s) (u +:+ v)
| lang_alt_l r s u : lang r u -> lang (Alt r s) u
| lang_alt_r r s u : lang s u -> lang (Alt r s) u
| lang_star_nil r : lang (Star r) ""
| lang_star_cons r u v : lang r u -> lang (Star r) v -> lang (Star r) (u +:+ v).

(** [\s] on code units below 256: tab, line feed, vertical tab, form
    feed, carriage return, space and the no-break space. *)
Definition is_space (c : ascii) : bool :=
  let n := N_of_ascii c in
  ((9 <=? n) && (n <=? 13) || (n =? 32) || (n =? 160))%N.

(** [[^\s@]] *)
Definition not_space_at (c : ascii) : bool :=
  negb (is_space c) && negb (Ascii.eqb c "@").

Definition is_char (d c : ascii) : bool := Ascii.eqb c d.

(** Every character of a string satisfies [p]. *)
Fixpoint all_chars (p : ascii -> bool) (s : string) : bool :=
  match s with
  | EmptyString => true
  | String c s' => p c && all_chars p s'
  end.

(** A non-empty run of characters that are neither white space nor
    [@]. *)
Definition part (s : string) : Prop := s <> "" /\ all_chars not_space_at s = true.

(** The shape [local@domain.tld]. *)
Definition email_shape (s : string) : Prop :=
  exists l d t, s = l +:+ "@" +:+ d +:+ "." +:+ t /\ part l /\ part d /\ part t.

End Regex.

(** ** Effects: a user store threaded through awaited calls *)

Module Eff.

(** A computation over a store [S] that returns or throws.  The store
    survives a throw: what was written before the exception stays
    written. *)
Definition eff (S A : Type) : Type := S -> completion A * S.

Definition ret {S A} (a : A) : eff S A := fun st => (Normal a, st).

Definition throw {S A} (e : error) : eff S A := fun st => (Throw e, st).

Definition bind {S A B} (m : eff S A) (k : A -> eff S B) : eff S B :=
  fun st =>
    match m st with
    | (Normal a, st') => k a st'
    | (Throw e, st') => (Throw e, st')
    end.

(** [try { m } catch (error) { h error }] *)
Definition try_catch {S A} (m : eff S A) (h : error -> eff S A) : eff S A :=
  fun st =>
    match m st with
    | (Normal a, st') => (Normal a, st')
    | (Throw e, st') => h e st'
    end.

(** A call that only reads the store. *)
Definition reading {S A} (f : S -> completion A) : eff S A :=
  fun st => (f st, st).

(** A call that does not touch the store. *)
Definition pure {S A} (c : completion A) : eff S A := fun st => (c, st).

End Eff.

Notation "x <- m ;; k" := (Eff.bind m (fun x => k))
  (at level 100, m at next level, right associativity).

(** ** HTTP requests and responses *)

(** The claims of a signed token, and the key it was signed with.  The
    compact serialisation of [jsonwebtoken] is not modelled: a token is
    kept decoded. *)
Record Jwt : Type := { jwt_claims : obj; jwt_key : string }.

(** What [res.json] is given: scalars, and the token of a login. *)
Inductive jsonv : Type :=
| JVal (v : value)
| JJwt (t : Jwt).

Definition json_of (o : obj) : list (string * jsonv) :=
  map (fun kv => (fst kv, JVal (snd kv))) o.

Record Response : Type := { status : Z; body : list (string * jsonv) }.

(** [res.status(code).json(o)]; [res.json(o)] alone answers 200. *)
Definition respond (code : Z) (o : list (string * jsonv)) : Response :=
  {| status := code; body := o |}.

(** [req.session]: the two properties the application writes. *)
Record SessionUser : Type := { su_id : value; su_email : value }.

Record Session : Type := {
  csrfSecret : value;
  user : option SessionUser
}.

#[global] Instance SessionUser_eq_dec : EqDecision SessionUser.
Proof. solve_decision. Defined.

#[global] Instance Session_eq_dec : EqDecision Session.
Proof. solve_decision. Defined.

Record Request : Type := {
  req_method : string;
  req_path : string;
  req_headers : obj;
  req_body : option obj;       (* [None]: [req.body] is undefined *)
  req_sessionID : string;
  req_session : Session
}.

(** [process.env]: a variable is a string or is not set. *)
Record Env : Type := {
  DB_TYPE : option string;
  TYPEAUTH : option string;
  JWTSECRET : option string;
  NODE_ENV : option string
}.

Definition env_is (v : option string) (s : string) : bool :=
  match v with
  | Some x => String.eqb x s
  | None => false
  end.

(** [process.env.X || dflt] *)
Definition env_or (v : option string) (dflt : string) : string :=
  match v with
  | Some x => if String.eqb x "" then dflt else x
  | None => dflt
  end.

(** ** The [jsonwebtoken] package, as far as [login] uses it *)

Module Jsonwebtoken.

Definition is_digit (c : ascii) : bool :=
  let n := N_of_ascii c in ((48 <=? n) && (n <=? 57))%N.

(** The leading decimal digits of a string, read as a number, and what
    follows them. *)
Fixpoint read_digits (acc : Z) (seen : bool) (s : string) : option Z * string :=
  match s with
  | String c s' =>
      if is_digit c
      then read_digits (10 * acc + Z.of_N (N_of_ascii c - 48)) true s'
      else (if seen then Some acc else None, s)
  | EmptyString => (if seen then Some acc else None, s)
  end.

(** The [ms] package on the short forms [<digits><unit>]: the number of
    milliseconds, [None] for what it does not parse. *)
Definition ms (s : string) : option Z :=
  match read_digits 0 false s with
  | (Some n, u) =>
      if String.eqb u "ms" then Some n
      else if String.eqb u "" then Some n
      else if String.eqb u "s" then Some (n * 1000)
      else if String.eqb u "m" then Some (n * 60000)
      else if String.eqb u "h" then Some (n * 3600000)
      else if String.eqb u "d" then Some (n * 86400000)
      else if String.eqb u "w" then Some (n * 604800000)
      else if String.eqb u "y" then Some (n * 31557600000)
      else None
  | (None, _) => None
  end.

(** What [JSON.stringify] keeps of an object: a property whose value
    is [undefined] is left out. *)
Fixpoint serialised (o : obj) : obj :=
  match o with
  | [] => []
  | (k, VUndefined) :: o' => serialised o'
  | (k, v) :: o' => (k, v) :: serialised o'
  end.

(** [jwt.sign(payload, secret, { expiresIn })] at clock [now_ms]
    (the value of [Date.now()]): [iat] is the clock in seconds, [exp]
    is [iat] plus the time span in seconds; the claims are the payload
    as its JSON text holds it. *)
Definition sign (payload : obj) (secret : string) (expiresIn : string)
    (now_ms : Z) : completion Jwt :=
  let iat := now_ms / 1000 in
  match ms expiresIn with
  | Some span =>
      Normal {| jwt_claims :=
                  serialised
                    (payload ++ [("iat", VNum iat); ("exp", VNum (iat + span / 1000))])%list;
                jwt_key := secret |}
  | None =>
      (* the message of the package, without its quotation marks *)
      Throw (mkError
        "expiresIn should be a number of seconds or string representing a timespan")
  end.

(** [jwt.decode(token)] *)
Definition decode (t : Jwt) : obj := jwt_claims t.

(** [jwt.verify(token, secret)]: the signature check alone. *)
Definition verify_signature (t : Jwt) (secret : string) : bool :=
  String.eqb (jwt_key t) secret.

End Jsonwebtoken.

(** ** The user model the controller is given

    [UserModel] is imported from [models/UserMongo.js] or
    [models/UserMysql.js]; the controller uses it through four calls,
    which form this interface. *)

(** The argument of [findOne]: [{ email }] for Mongoose,
    [{ where: { email } }] for Sequelize. *)
Inductive query : Type :=
| QEmail (email : value)
| QWhere (email : value).

Class UserModel (User Store : Type) : Type := {
  (** [UserModel.findOne(q)]: a record, [null] ([None]), or a rejection *)
  findOne : query -> Store -> completion (option User);
  (** [UserModel.create(o)]: the stored record, or a rejection *)
  createRecord : obj -> Store -> completion User * Store;
  (** [user.comparePassword(candidate)] *)
  comparePassword : User -> value -> completion bool;
  (** [user.toJSON()] *)
  toJSON : User -> obj;
  (** [user.id], [user._id], [user.email] *)
  user_id : User -> value;
  user__id : User -> value;
  user_email : User -> value
}.

(** ** Identifier resolution

    A call [f(x)] of a bare identifier looks [f] up through the scope
    chain, innermost first.  A frame lists its bindings; a binding that
    holds a function of one object is given with that function. *)

Module Scope.

Definition callable : Type := option (obj -> completion unit).
Definition frame : Type := list (string * callable).

Fixpoint lookup_frame (x : string) (f : frame) : option callable :=
  match f with
  | [] => None
  | (y, c) :: f' => if String.eqb x y then Some c else lookup_frame x f'
  end.

Fixpoint resolve (x : string) (chain : list frame) : option callable :=
  match chain with
  | [] => None
  | f :: chain' =>
      match lookup_frame x f with
      | Some c => Some c
      | None => resolve x chain'
      end
  end.

(** [x(arg)] *)
Definition call (chain : list frame) (x : string) (arg : obj) : completion unit :=
  match resolve x chain with
  | None => Throw (ReferenceError (x +:+ " is not defined"))
  | Some None => Throw (TypeError (x +:+ " is not a function"))
  | Some (Some f) => f arg
  end.

Definition names (l : list string) : frame := map (fun x => (x, None)) l.

(** The [try] block of [create]: its [const] and [let] declarations. *)
Definition create_block : frame :=
  names ["userData"; "name"; "surname"; "email"; "password"; "bio";
         "profilePicture"; "birthDate"; "role"; "existingUser"; "newUser";
         "createdUser"; "userResponse"].

(** The function scope of the method [create(req, res)]. *)
Definition create_function : frame := names ["req"; "res"; "arguments"].

(** The class scope: the inner binding of the class name.  Methods are
    properties of the prototype, not bindings. *)
Definition class_scope : frame := names ["UserController"].

(** The module scope of the controller file: its imports, [let
    UserModel] and the class declaration. *)
Definition module_scope : frame :=
  names ["jwt"; "logger"; "dotenvExpand"; "UserModel"; "UserController"].

(** The global object of Node.js and the standard built-ins. *)
Definition global_scope : frame :=
  names ["globalThis"; "global"; "process"; "console"; "Buffer";
         "setTimeout"; "clearTimeout"; "setInterval"; "clearInterval";
         "setImmediate"; "clearImmediate"; "queueMicrotask";
         "structuredClone"; "fetch"; "URL"; "URLSearchParams";
         "TextEncoder"; "TextDecoder"; "AbortController"; "AbortSignal";
         "Event"; "EventTarget"; "performance"; "crypto"; "atob"; "btoa";
         "Object"; "Function"; "Array"; "Number"; "Boolean"; "String";
         "Symbol"; "BigInt"; "Math"; "Date"; "RegExp"; "JSON"; "Promise";
         "Proxy"; "Reflect"; "Map"; "Set"; "WeakMap"; "WeakSet"; "WeakRef";
         "Error"; "TypeError"; "RangeError"; "ReferenceError"; "SyntaxError";
         "EvalError"; "URIError"; "AggregateError"; "ArrayBuffer";
         "SharedArrayBuffer"; "DataView"; "Atomics"; "Intl"; "WebAssembly";
         "Int8Array"; "Uint8Array"; "Uint8ClampedArray"; "Int16Array";
         "Uint16Array"; "Int32Array"; "Uint32Array"; "Float32Array";
         "Float64Array"; "BigInt64Array"; "BigUint64Array";
         "parseInt"; "parseFloat"; "isNaN"; "isFinite"; "eval";
         "encodeURI"; "encodeURIComponent"; "decodeURI"; "decodeURIComponent";
         "escape"; "unescape"; "undefined"; "NaN"; "Infinity"].

(** The scope chain at the call in [create]. *)
Definition create_chain : list frame :=
  [create_block; create_function; class_scope; module_scope; global_scope].

End Scope.

(** ** [UserController] *)

Module UserController.

Import Regex.

(** [/^[^\s@]+@[^\s@]+\.[^\s@]+$/] *)
Definition emailRegex : regex :=
  Cat (Plus (Class not_space_at))
   (Cat (Class (is_char "@"))
     (Cat (Plus (Class not_space_at))
       (Cat (Class (is_char "."))
            (Plus (Class not_space_at))))).

(** [emailRegex.test(v)]: the argument is converted to a string. *)
Definition emailRegex_test (v : value) : bool := matches emailRegex (to_string v).

(** The method [validateUserData(userData)]: returns, or throws the
    first failed check. *)
Definition validateUserData (userData : obj) : completion unit :=
  let name := get "name" userData in
  let surname := get "surname" userData in
  let email := get "email" userData in
  let password := get "password" userData in
  if negb (truthy name) || negb (truthy surname)
     || negb (truthy email) || negb (truthy password)
  then Throw (mkError "All fields (name, surname, email, password) are required.")
  else if negb (emailRegex_test email)
  then Throw (mkError "Invalid email format.")
  else
    match get_length password with
    | Throw e => Throw e
    | Normal len =>
        if lt_number len 8
        then Throw (mkError "Password must be at least 8 characters long.")
        else Normal tt
    end.

Section Controller.

Context {User Store : Type} `{UM : UserModel User Store}.
Variable env : Env.

(** The lookup both [create] and [validateUser] make: which query is
    sent depends on [DB_TYPE]; with any other value nothing is
    assigned and the variable stays [undefined]. *)
Definition find_by_email (email : value) (st : Store) : completion (option User) :=
  if env_is (DB_TYPE env) "mongo" then findOne (QEmail email) st
  else if env_is (DB_TYPE env) "mysql" then findOne (QWhere email) st
  else Normal None.

(** The body of the [try] block of [create]. *)
Definition create_try (req : Request) : Eff.eff Store Response :=
  match req_body req with
  | None => Eff.ret (respond 400 (json_of [("error", VStr "Request body is missing.")]))
  | Some b =>
      let name := get "name" b in
      let surname := get "surname" b in
      let email := get "email" b in
      let password := get "password" b in
      let bio := get "bio" b in
      let profilePicture := get "profilePicture" b in
      let birthDate := get "birthDate" b in
      let role := get "role" b in
      _ <- Eff.pure (Scope.call Scope.create_chain "validateUserData"
                       [("name", name); ("surname", surname);
                        ("email", email); ("password", password)]) ;;
      existingUser <- Eff.reading (find_by_email email) ;;
      match existingUser with
      | Some _ =>
          Eff.ret (respond 400
            (json_of [("error", VStr "User with this email already exists.")]))
      | None =>
          let newUser :=
            [("name", name); ("surname", surname); ("email", email);
             ("password", password); ("bio", bio);
             ("profilePicture", profilePicture); ("birthDate", birthDate);
             ("role", or_else role (VStr "User"))] in
          createdUser <-
            (if env_is (DB_TYPE env) "mongo"
             then (fun st => let (r, st') := createRecord newUser st in
                             (match r with
                              | Normal u => Normal (Some u)
                              | Throw e => Throw e
                              end, st'))
             else if env_is (DB_TYPE env) "mysql"
             then (fun st => let (r, st') := createRecord newUser st in
                             (match r with
                              | Normal u => Normal (Some u)
                              | Throw e => Throw e
                              end, st'))
             else Eff.ret None) ;;
          match createdUser with
          | None =>
              Eff.throw (TypeError
                "Cannot read properties of undefined (reading 'toJSON')")
          | Some u =>
              let userResponse := delete_prop "password" (toJSON u) in
              Eff.ret (respond 201 (json_of userResponse))
          end
      end
  end.

(** [create(req, res)]: whatever the [try] block throws is answered
    with 400 and the message of the exception. *)
Definition create (req : Request) : Eff.eff Store Response :=
  Eff.try_catch (create_try req)
    (fun error =>
       Eff.ret (respond 400 (json_of [("error", VStr (err_message error))]))).

(** [validateUser(email, password)]; the [catch] logs and rethrows. *)
Definition validateUser (email password : value) (st : Store)
    : completion (option User) :=
  match find_by_email email st with
  | Throw e => Throw e
  | Normal None => Normal None
  | Normal (Some u) =>
      match comparePassword u password with
      | Throw e => Throw e
      | Normal true => Normal (Some u)
      | Normal false => Normal None
      end
  end.

(** [login(req, res)] at clock [now_ms], over the store [st]: the
    response, and [req.session] as the handler leaves it.  There is no
    [try] around the body: an exception rejects the returned promise. *)
Definition login (now_ms : Z) (st : Store) (req : Request)
    : completion (Response * Session) :=
  match req_body req with
  | None =>
      Throw (TypeError
        "Cannot destructure property 'email' of 'req.body' as it is undefined.")
  | Some b =>
      let email := get "email" b in
      let password := get "password" b in
      match validateUser email password st with
      | Throw e => Throw e
      | Normal None =>
          Normal (respond 401 (json_of [("error", VStr "Invalid email or password")]),
                  req_session req)
      | Normal (Some u) =>
          let authType := TYPEAUTH env in
          if env_is authType "JWT" then
            match Jsonwebtoken.sign
                    [("id", or_else (user_id u) (user__id u));
                     ("email", user_email u)]
                    (env_or (JWTSECRET env) "defaultsecret") "1h" now_ms with
            | Throw e => Throw e
            | Normal token =>
                Normal (respond 200 [("token", JJwt token)], req_session req)
            end
          else if env_is authType "session" then
            let session' :=
              {| csrfSecret := csrfSecret (req_session req);
                 user := Some {| su_id := or_else (user_id u) (user__id u);
                                 su_email := user_email u |} |} in
            Normal (respond 200 (json_of [("message", VStr "Logged in successfully")]),
                    session')
          else
            Normal (respond 500 (json_of [("error", VStr "Invalid authentication type")]),
                    req_session req)
      end
  end.

End Controller.

End UserController.

(** ** [crypto.randomBytes] and [Buffer.toString('hex')] *)

Module Crypto.

Definition hex_digit (n : N) : ascii :=
  if (n <? 10)%N then ascii_of_N (48 + n) else ascii_of_N (87 + n).

(** [buf.toString('hex')]: two lower-case digits per byte. *)
Fixpoint hex (bs : list Byte.byte) : string :=
  match bs with
  | [] => ""
  | b :: bs' =>
      let n := Byte.to_N b in
      String (hex_digit (n / 16)) (String (hex_digit (n mod 16)) (hex bs'))
  end.

Definition hex_value (c : ascii) : option N :=
  let n := N_of_ascii c in
  if ((48 <=? n) && (n <=? 57))%N then Some (n - 48)%N
  else if ((97 <=? n) && (n <=? 102))%N then Some (n - 87)%N
  else None.

(** [Buffer.from(s, 'hex')], on strings of an even number of digits. *)
Fixpoint unhex (s : string) : option (list Byte.byte) :=
  match s with
  | EmptyString => Some []
  | String c1 (String c2 s') =>
      match hex_value c1, hex_value c2, unhex s' with
      | Some h, Some l, Some bs =>
          match Byte.of_N (16 * h + l) with
          | Some b => Some (b :: bs)
          | None => None
          end
      | _, _, _ => None
      end
  | String _ EmptyString => None
  end.

(** The generator of the operating system, as the sequence of bytes it
    hands out and the number already drawn. *)
Record Rng : Type := { rng_bytes : nat -> Byte.byte; rng_pos : nat }.

(** [crypto.randomBytes(n)] *)
Definition randomBytes (n : nat) (g : Rng) : list Byte.byte * Rng :=
  (map (rng_bytes g) (seq (rng_pos g) n),
   {| rng_bytes := rng_bytes g; rng_pos := (rng_pos g + n)%nat |}).

End Crypto.

(** ** The middleware pipeline of the application *)

Module Express.

(** What [next(err)] is given: an exception, with the [status] and
    [code] properties an HTTP error carries. *)
Record next_error : Type := {
  ne_error : error;
  ne_status : option Z;
  ne_code : option string
}.

Definition plain_error (e : error) : next_error :=
  {| ne_error := e; ne_status := None; ne_code := None |}.

(** How a middleware ends: [next()], [next(err)], a response, or a
    promise rejected with nothing sent. *)
Inductive signal : Type :=
| Next
| NextErr (e : next_error)
| Respond (r : Response)
| Rejected (e : error).

Inductive outcome : Type :=
| Answered (r : Response)
| Unanswered (e : error).

(** [app.use(fn)]: a function of four parameters is an error handler,
    any other a regular middleware. *)
Inductive layer (C : Type) : Type :=
| Handler (name : string) (h : C -> C * signal)
| ErrorHandler (name : string) (h : next_error -> C -> C * signal).
Arguments Handler {C} name h.
Arguments ErrorHandler {C} name h.

Definition layer_name {C} (l : layer C) : string :=
  match l with
  | Handler n _ => n
  | ErrorHandler n _ => n
  end.

Definition is_handler {C} (l : layer C) : bool :=
  match l with
  | Handler _ _ => true
  | ErrorHandler _ _ => false
  end.

(** The end of the stack: 404 when no layer answered, the status of
    the error (500 when it has none) when one is pending. *)
Definition finalhandler (err : option next_error) : Response :=
  match err with
  | None => respond 404 []
  | Some e => respond (default 500 (ne_status e)) []
  end.

Section Dispatch.

Context {C : Type}.
(** [enter n c]: the context once the layer named [n] has been entered. *)
Variable enter : string -> C -> C.

(** The router: layers run in the order of registration; while an
    error is pending the regular middlewares are skipped, while none is
    pending the error handlers are. *)
Fixpoint dispatch (ls : list (layer C)) (err : option next_error) (c : C)
    : C * outcome :=
  match ls with
  | [] => (c, Answered (finalhandler err))
  | Handler n h :: ls' =>
      match err with
      | Some _ => dispatch ls' err c
      | None =>
          match h (enter n c) with
          | (c', Next) => dispatch ls' None c'
          | (c', NextErr e) => dispatch ls' (Some e) c'
          | (c', Respond r) => (c', Answered r)
          | (c', Rejected e) => (c', Unanswered e)
          end
      end
  | ErrorHandler n h :: ls' =>
      match err with
      | None => dispatch ls' None c
      | Some e =>
          match h e (enter n c) with
          | (c', Next) => dispatch ls' None c'
          | (c', NextErr e') => dispatch ls' (Some e') c'
          | (c', Respond r) => (c', Answered r)
          | (c', Rejected e') => (c', Unanswered e')
          end
      end
  end.

End Dispatch.

End Express.

(** ** The [csrf-csrf] package, as configured by [setupCSRFProtection] *)

Module CsrfCsrf.

Import Express.

Record CookieOptions : Type := {
  httpOnly : bool;
  sameSite : string;
  secure : bool
}.

Record Options : Type := {
  getSecret : Request -> value;
  cookieName : string;
  cookieOptions : CookieOptions;
  size : Z;
  ignoredMethods : list string
}.

(** [createHttpError(403, "invalid csrf token", { code: "EBADCSRFTOKEN" })] *)
Definition invalidCsrfTokenError : next_error :=
  {| ne_error := Error_ "ForbiddenError" "invalid csrf token";
     ne_status := Some 403;
     ne_code := Some "EBADCSRFTOKEN" |}.

Definition is_ignored (o : Options) (m : string) : bool :=
  existsb (String.eqb m) (ignoredMethods o).

(** [req.cookies[cookieName]], the first thing both the validation and
    the token generation do: [cookies] is [req.cookies], [None] when
    no middleware has parsed the cookies; the read then fails. *)
Definition getCsrfCookieFromRequest (o : Options) (cookies : option obj)
    : completion value :=
  match cookies with
  | None =>
      Throw (TypeError
        ("Cannot read properties of undefined (reading '" +:+ cookieName o +:+ "')"))
  | Some jar => Normal (get (cookieName o) jar)
  end.

Section Protection.

(** The token scheme of the package, once the cookie is read: whether
    the proof a request carries verifies against a secret, and the
    token derived from a secret for a response. *)
Variable proofVerifies : value -> Request -> bool.
Variable deriveToken : value -> Request -> string.

(** [validateRequest(req)]: a cookie that is not a string is no
    proof. *)
Definition validateRequest (o : Options) (cookies : option obj) (req : Request)
    : completion bool :=
  match getCsrfCookieFromRequest o cookies with
  | Throw e => Throw e
  | Normal (VStr _) => Normal (proofVerifies (getSecret o req) req)
  | Normal _ => Normal false
  end.

(** [doubleCsrfProtection(req, res, next)]; an exception thrown by a
    middleware is caught by the router and handed to [next]. *)
Definition doubleCsrfProtection (o : Options) (cookies : option obj)
    (req : Request) : signal :=
  if is_ignored o (req_method req) then Next
  else
    match validateRequest o cookies req with
    | Throw e => NextErr (plain_error e)
    | Normal true => Next
    | Normal false => NextErr invalidCsrfTokenError
    end.

(** [generateToken(req, res)] *)
Definition generateToken (o : Options) (cookies : option obj) (req : Request)
    : completion string :=
  match getCsrfCookieFromRequest o cookies with
  | Throw e => Throw e
  | Normal _ => Normal (deriveToken (getSecret o req) req)
  end.

End Protection.

End CsrfCsrf.

(** ** The application: sessions, the CSRF set-up, routes *)

Module App.

Import Express CsrfCsrf Crypto.

Section Application.

Context {User Store : Type} `{UM : UserModel User Store}.
Variable env : Env.
Variable validateRequest : value -> Request -> bool.
Variable generateToken : value -> Request -> string.

(** What a request meets on its way through the stack. *)
Record Ctx : Type := {
  ctx_req : Request;
  ctx_sessions : gmap string Session;     (* the session store *)
  ctx_set_errors : list (option error);   (* how its coming writes end *)
  ctx_saved : Session;                    (* the session as last loaded or saved *)
  ctx_rng : Rng;
  ctx_users : Store;
  ctx_now : Z;                            (* [Date.now()] *)
  ctx_csrfToken : option string;          (* [res.locals.csrfToken] *)
  ctx_trace : list string                 (* the layers entered, oldest first *)
}.

Definition set_session (s : Session) (c : Ctx) : Ctx :=
  {| ctx_req :=
       {| req_method := req_method (ctx_req c);
          req_path := req_path (ctx_req c);
          req_headers := req_headers (ctx_req c);
          req_body := req_body (ctx_req c);
          req_sessionID := req_sessionID (ctx_req c);
          req_session := s |};
     ctx_sessions := ctx_sessions c;
     ctx_set_errors := ctx_set_errors c;
     ctx_saved := ctx_saved c;
     ctx_rng := ctx_rng c;
     ctx_users := ctx_users c;
     ctx_now := ctx_now c;
     ctx_csrfToken := ctx_csrfToken c;
     ctx_trace := ctx_trace c |}.

Definition set_rng (g : Rng) (c : Ctx) : Ctx :=
  {| ctx_req := ctx_req c;
     ctx_sessions := ctx_sessions c;
     ctx_set_errors := ctx_set_errors c;
     ctx_saved := ctx_saved c;
     ctx_rng := g;
     ctx_users := ctx_users c;
     ctx_now := ctx_now c;
     ctx_csrfToken := ctx_csrfToken c;
     ctx_trace := ctx_trace c |}.

Definition set_store (m : gmap string Session) (errs : list (option error))
    (c : Ctx) : Ctx :=
  {| ctx_req := ctx_req c;
     ctx_sessions := m;
     ctx_set_errors := errs;
     ctx_saved := req_session (ctx_req c);
     ctx_rng := ctx_rng c;
     ctx_users := ctx_users c;
     ctx_now := ctx_now c;
     ctx_csrfToken := ctx_csrfToken c;
     ctx_trace := ctx_trace c |}.

Definition set_users (st : Store) (c : Ctx) : Ctx :=
  {| ctx_req := ctx_req c;
     ctx_sessions := ctx_sessions c;
     ctx_set_errors := ctx_set_errors c;
     ctx_saved := ctx_saved c;
     ctx_rng := ctx_rng c;
     ctx_users := st;
     ctx_now := ctx_now c;
     ctx_csrfToken := ctx_csrfToken c;
     ctx_trace := ctx_trace c |}.

Definition set_csrfToken (t : string) (c : Ctx) : Ctx :=
  {| ctx_req := ctx_req c;
     ctx_sessions := ctx_sessions c;
     ctx_set_errors := ctx_set_errors c;
     ctx_saved := ctx_saved c;
     ctx_rng := ctx_rng c;
     ctx_users := ctx_users c;
     ctx_now := ctx_now c;
     ctx_csrfToken := Some t;
     ctx_trace := ctx_trace c |}.

Definition enter (n : string) (c : Ctx) : Ctx :=
  {| ctx_req := ctx_req c;
     ctx_sessions := ctx_sessions c;
     ctx_set_errors := ctx_set_errors c;
     ctx_saved := ctx_saved c;
     ctx_rng := ctx_rng c;
     ctx_users := ctx_users c;
     ctx_now := ctx_now c;
     ctx_csrfToken := ctx_csrfToken c;
     ctx_trace := (ctx_trace c ++ [n])%list |}.

(** [req.session.save(cb)]: the store's [set] under the session id.
    The callback receives the error the write ended with, if any; the
    session middleware takes the session for saved either way. *)
Definition session_save (c : Ctx) : option error * Ctx :=
  let written :=
    <[req_sessionID (ctx_req c) := req_session (ctx_req c)]> (ctx_sessions c) in
  match ctx_set_errors c with
  | Some e :: rest => (Some e, set_store (ctx_sessions c) rest c)
  | None :: rest => (None, set_store written rest c)
  | [] => (None, set_store written [] c)
  end.

(** The configuration [setupCSRFProtection] passes to [doubleCsrf]. *)
Definition csrfOptions : Options :=
  {| getSecret := fun req => csrfSecret (req_session req);
     cookieName := "csrf-token";
     cookieOptions :=
       {| httpOnly := true;
          sameSite := "strict";
          secure := env_is (NODE_ENV env) "production" |};
     size := 64;
     ignoredMethods := ["GET"; "HEAD"; "OPTIONS"] |}.

(** The middleware that initialises the CSRF secret of a session. *)
Definition csrfBootstrap (c : Ctx) : Ctx * signal :=
  let session := req_session (ctx_req c) in
  if negb (truthy (csrfSecret session)) then
    let (bytes, g) := randomBytes 32 (ctx_rng c) in
    let c1 :=
      set_session {| csrfSecret := VStr (hex bytes); user := user session |}
                  (set_rng g c) in
    match session_save c1 with
    | (Some err, c2) => (c2, NextErr (plain_error err))
    | (None, c2) => (c2, Next)
    end
  else (c, Next).

(** [req.cookies]: no layer of the entry file parses cookies (no
    cookie parser is registered), so the property is [undefined] on
    every request. *)
Definition req_cookies (req : Request) : option obj := None.

(** [app.use(doubleCsrfProtection)] *)
Definition csrfProtection (c : Ctx) : Ctx * signal :=
  (c, doubleCsrfProtection validateRequest csrfOptions
        (req_cookies (ctx_req c)) (ctx_req c)).

(** The middleware that sets [res.locals.csrfToken]; an exception of
    [generateToken] is caught by the router and handed to [next]. *)
Definition csrfLocals (c : Ctx) : Ctx * signal :=
  match CsrfCsrf.generateToken generateToken csrfOptions
          (req_cookies (ctx_req c)) (ctx_req c) with
  | Throw e => (c, NextErr (plain_error e))
  | Normal token => (set_csrfToken token c, Next)
  end.

(** The three layers [setupCSRFProtection] registers, in its order. *)
Definition setupCSRFProtection : list (layer Ctx) :=
  [Handler "csrfBootstrap" csrfBootstrap;
   Handler "doubleCsrfProtection" csrfProtection;
   Handler "csrfLocals" csrfLocals].

(** Modelled from the spec: [middleWareGlobal] of
    [src/middlewares/middleware.js], which is not among the sources.
    The spec has nothing between CSRF validation and route dispatch, so
    the middleware hands the request on. *)
Definition middleWareGlobal (c : Ctx) : Ctx * signal := (c, Next).

(** Modelled from the spec: [checkCSRFError] of
    [src/middlewares/middleware.js], which is not among the sources.
    The spec rejects a failed verification with a CSRF error of the 403
    class before the request reaches the route handlers; any other
    error is passed on. *)
Definition checkCSRFError (err : next_error) (c : Ctx) : Ctx * signal :=
  if bool_decide (ne_code err = Some "EBADCSRFTOKEN")
  then (c, Respond (respond 403 (json_of [("error", VStr (err_message (ne_error err)))])))
  else (c, NextErr err).

(** Modelled from the spec: the router of [routes.js], which is not
    among the sources.  The spec's interface has [POST /users] for
    registration and [POST /login] for login. *)
Definition routes (c : Ctx) : Ctx * signal :=
  let req := ctx_req c in
  if String.eqb (req_method req) "POST" && String.eqb (req_path req) "/users" then
    let (r, st) := UserController.create env req (ctx_users c) in
    match r with
    | Normal resp => (set_users st c, Respond resp)
    | Throw e => (set_users st c, Rejected e)
    end
  else if String.eqb (req_method req) "POST" && String.eqb (req_path req) "/login" then
    match UserController.login env (ctx_now c) (ctx_users c) req with
    | Normal (resp, s) => (set_session s c, Respond resp)
    | Throw e => (c, Rejected e)
    end
  else (c, Next).

(** [setupGlobalMiddlewaresAndRoutes] *)
Definition setupGlobalMiddlewaresAndRoutes : list (layer Ctx) :=
  [Handler "middleWareGlobal" middleWareGlobal;
   ErrorHandler "checkCSRFError" checkCSRFError;
   Handler "routes" routes].

(** The stack after the session middleware, in the order
    [connectAndSetup] builds it. *)
Definition stack : list (layer Ctx) :=
  (setupCSRFProtection ++ setupGlobalMiddlewaresAndRoutes)%list.

(** The session middleware of [express-session]: it loads
    [req.session] from the store under the session id, a fresh session
    when there is none ... *)
Definition fresh_session : Session := {| csrfSecret := VUndefined; user := None |}.

Definition session_load (c : Ctx) : Ctx :=
  let s := default fresh_session (ctx_sessions c !! req_sessionID (ctx_req c)) in
  {| ctx_req :=
       {| req_method := req_method (ctx_req c);
          req_path := req_path (ctx_req c);
          req_headers := req_headers (ctx_req c);
          req_body := req_body (ctx_req c);
          req_sessionID := req_sessionID (ctx_req c);
          req_session := s |};
     ctx_sessions := ctx_sessions c;
     ctx_set_errors := ctx_set_errors c;
     ctx_saved := s;
     ctx_rng := ctx_rng c;
     ctx_users := ctx_users c;
     ctx_now := ctx_now c;
     ctx_csrfToken := ctx_csrfToken c;
     ctx_trace := ctx_trace c |}.

(** ... and when the response ends it writes the session back if it
    differs from what was loaded or last saved ([resave: false],
    [saveUninitialized: false]).  An error of this write reaches no
    one. *)
Definition session_end (c : Ctx) : Ctx :=
  if bool_decide (req_session (ctx_req c) = ctx_saved c)
  then c
  else snd (session_save c).

(** One request through the application. *)
Definition handle (c : Ctx) : Ctx * outcome :=
  let (c', o) := dispatch enter stack None (session_load c) in
  (session_end c', o).

End Application.

End App.

(** ** A credential store after the spec *)

Module CredentialStore.

(** Modelled from the spec: the user record of [models/UserMongo.js]
    and [models/UserMysql.js], which are not among the sources.  A
    record has a store-assigned id, a unique lower-case email, a proof
    derived from the raw password, and the profile fields. *)
Record UserRecord : Type := {
  ur_id : Z;
  ur_email : string;
  ur_passwordProof : string;
  ur_name : value;
  ur_surname : value;
  ur_bio : value;
  ur_profilePicture : value;
  ur_birthDate : value;
  ur_role : value
}.

Definition lower_ascii (c : ascii) : ascii :=
  let n := N_of_ascii c in
  if ((65 <=? n) && (n <=? 90))%N then ascii_of_N (n + 32) else c.

Fixpoint lowercase (s : string) : string :=
  match s with
  | EmptyString => EmptyString
  | String c s' => String (lower_ascii c) (lowercase s')
  end.

Definition query_email (q : query) : string :=
  match q with
  | QEmail e => lowercase (to_string e)
  | QWhere e => lowercase (to_string e)
  end.

Section Store.

(** The derivation of the proof from the raw password. *)
Variable derive : string -> string.

(** Modelled from the spec: lookup by normalised email. *)
Definition lookup_email (email : string) (st : list UserRecord) : option UserRecord :=
  List.find (fun u => String.eqb (ur_email u) email) st.

(** Modelled from the spec: insert; an email already present fails
    with a "duplicate" error and leaves the store as it was. *)
Definition insert (o : obj) (st : list UserRecord)
    : completion UserRecord * list UserRecord :=
  let email := lowercase (to_string (get "email" o)) in
  match lookup_email email st with
  | Some _ => (Throw (mkError "duplicate key: email"), st)
  | None =>
      let u := {| ur_id := Z.of_nat (length st) + 1;
                  ur_email := email;
                  ur_passwordProof := derive (to_string (get "password" o));
                  ur_name := get "name" o;
                  ur_surname := get "surname" o;
                  ur_bio := get "bio" o;
                  ur_profilePicture := get "profilePicture" o;
                  ur_birthDate := get "birthDate" o;
                  ur_role := get "role" o |} in
      (Normal u, (st ++ [u])%list)
  end.

(** Modelled from the spec: each record verifies a candidate password
    against its stored credential. *)
Definition verify (u : UserRecord) (candidate : value) : completion bool :=
  Normal (String.eqb (ur_passwordProof u) (derive (to_string candidate))).

(** Modelled from the spec: the stored record as an object; the proof
    is its [password] property, which the caller strips. *)
Definition serialise (u : UserRecord) : obj :=
  [("id", VNum (ur_id u)); ("name", ur_name u); ("surname", ur_surname u);
   ("email", VStr (ur_email u)); ("password", VStr (ur_passwordProof u));
   ("bio", ur_bio u); ("profilePicture", ur_profilePicture u);
   ("birthDate", ur_birthDate u); ("role", ur_role u)].

(** Modelled from the spec: the credential store as a user model.  Ids
    are numbers under [id]; there is no [_id]. *)
Definition model : UserModel UserRecord (list UserRecord) :=
  {| findOne := fun q st => Normal (lookup_email (query_email q) st);
     createRecord := insert;
     comparePassword := verify;
     toJSON := serialise;
     user_id := fun u => VNum (ur_id u);
     user__id := fun _ => VUndefined;
     user_email := fun u => VStr (ur_email u) |}.

End Store.

End CredentialStore.

(** ** Sample data *)

Module Sample.

Import CredentialStore.

(** A stand-in for the password hash, for the samples only. *)
Definition derive (pw : string) : string := "proof:" +:+ pw.

Definition store_model : UserModel UserRecord (list UserRecord) := model derive.

Definition env_of (db auth : string) : Env :=
  {| DB_TYPE := Some db; TYPEAUTH := Some auth;
     JWTSECRET := None; NODE_ENV := None |}.

Definition no_session : Session := {| csrfSecret := VUndefined; user := None |}.

Definition post (path : string) (b : option obj) : Request :=
  {| req_method := "POST"; req_path := path;
     req_headers := [("content-type", VStr "application/json")];
     req_body := b; req_sessionID := "sid-1"; req_session := no_session |}.

(** The registration of the spec's scenario. *)
Definition alice : obj :=
  [("name", VStr "A"); ("surname", VStr "B");
   ("email", VStr "a@b.com"); ("password", VStr "longenough")].

(** A store that holds the scenario's user. *)
Definition alice_record : UserRecord :=
  {| ur_id := 1; ur_email := "a@b.com";
     ur_passwordProof := derive "longenough";
     ur_name := VStr "A"; ur_surname := VStr "B";
     ur_bio := VUndefined; ur_profilePicture := VUndefined;
     ur_birthDate := VUndefined; ur_role := VStr "User" |}.

Definition credentials (email password : string) : obj :=
  [("email", VStr email); ("password", VStr password)].

(** A request in a session that holds a CSRF secret, at the head of
    the stack; the generator hands out zero bytes and the store is
    empty. *)
Definition with_secret : Session :=
  {| csrfSecret := VStr "5ec2e7"; user := None |}.

Definition zero_rng : Crypto.Rng :=
  {| Crypto.rng_bytes := fun _ => Byte.x00; Crypto.rng_pos := 0 |}.

Definition arriving (req : Request) (s : Session)
    : App.Ctx (Store := list UserRecord) :=
  {| App.ctx_req :=
       {| req_method := req_method req; req_path := req_path req;
          req_headers := req_headers req; req_body := req_body req;
          req_sessionID := req_sessionID req; req_session := s |};
     App.ctx_sessions := ∅;
     App.ctx_set_errors := [];
     App.ctx_saved := s;
     App.ctx_rng := zero_rng;
     App.ctx_users := [alice_record];
     App.ctx_now := 0;
     App.ctx_csrfToken := None;
     App.ctx_trace := [] |}.

(** A token scheme under which no request carries a valid proof. *)
Definition no_proof (secret : value) (req : Request) : bool := false.

Definition some_token (secret : value) (req : Request) : string := "token".

(** What is observed of a request that went through the application:
    the answer, the layers entered, the stored session and the user
    store. *)
Definition observe (r : App.Ctx (Store := list UserRecord) * Express.outcome)
    : Express.outcome * list string * option Session * list UserRecord :=
  (snd r, App.ctx_trace (fst r),
   App.ctx_sessions (fst r) !! "sid-1", App.ctx_users (fst r)).

(** A token scheme under which every request carries a valid proof. *)
Definition any_proof (secret : value) (req : Request) : bool := true.

Definition zero_secret : string :=
  "0000000000000000000000000000000000000000000000000000000000000000".

(** Three registrations that fail one check each. *)
Definition missing_fields : obj := [("name", VStr "A")].

Definition bad_email : obj :=
  [("name", VStr "A"); ("surname", VStr "B");
   ("email", VStr "a-at-b.com"); ("password", VStr "longenough")].

Definition short_password : obj :=
  [("name", VStr "A"); ("surname", VStr "B");
   ("email", VStr "a@b.com"); ("password", VStr "short")].

End Sample.

(** ** Statements *)

Module Statements.

Import UserController.

(** The two responses a caller can tell apart by nothing but their
    text. *)
Definition invalid_credentials : Response :=
  respond 401 (json_of [("error", VStr "Invalid email or password")]).

Definition not_defined : string := "validateUserData is not defined".

Section Login.

Context {User Store : Type} `{UM : UserModel User Store}.

(** A login attempt fails for one of two causes: no record is found
    for the email, or the record found rejects the password. *)
Definition rejected (env : Env) (st : Store) (email password : value) : Prop :=
  find_by_email env email st = Normal None \/
  exists u, find_by_email env email st = Normal (Some u) /\
            comparePassword u password = Normal false.

(** The identity [login] issues for a user. *)
Definition identity (u : User) : SessionUser :=
  {| su_id := or_else (user_id u) (user__id u); su_email := user_email u |}.

End Login.

(** No property of a response body is a token. *)
Definition no_token (b : list (string * jsonv)) : Prop :=
  forall k v, In (k, v) b -> k <> "token" /\ forall t, v <> JJwt t.

End Statements.

(** ** Loading the user model

    The controller file awaits the import of one of the two model
    files before the class is defined. *)

Module ModelLoader.

(** The quotation mark of the message below. *)
Definition dq : string := String (ascii_of_N 34) "".

Definition invalid_db_type : string :=
  "Invalid DB_TYPE in .env file. Must be " +:+ dq +:+ "mongo" +:+ dq
  +:+ " or " +:+ dq +:+ "mysql" +:+ dq +:+ ".".

Section Load.

Context {M : Type}.

(** The [try] block: [importMongo] and [importMysql] are what
    [(await import(file)).default] ends with for the two files; only
    the one selected by [DB_TYPE] is awaited. *)
Definition load_try (env : Env) (importMongo importMysql : completion M)
    : completion M :=
  if env_is (DB_TYPE env) "mongo" then importMongo
  else if env_is (DB_TYPE env) "mysql" then importMysql
  else Throw (mkError invalid_db_type).

(** The module's top level: the model, or the one error of the
    [catch] branch; beside it, what [logger.error] was given. *)
Definition loadUserModel (env : Env) (importMongo importMysql : completion M)
    : completion M * list error :=
  match load_try env importMongo importMysql with
  | Normal m => (Normal m, [])
  | Throw error => (Throw (mkError "Failed to load user model"), [error])
  end.

End Load.

End ModelLoader.

(** ** Start-up of the application *)

Module Startup.

(** A line of the console: [console.log(msg)] or
    [console.error(msg, error)]. *)
Inductive line : Type :=
| Out (msg : string)
| Err (msg : string) (e : error).

(** The application object and the console: the layers registered by
    [app.use], in order and by name; the settings of [app.set]; the
    port listened on. *)
Record Server : Type := {
  middlewares : list string;
  settings : list (string * string);
  listening : option Z;
  console : list line
}.

Definition app_use (names : list string) : Eff.eff Server unit :=
  fun a =>
    (Normal tt,
     {| middlewares := (middlewares a ++ names)%list; settings := settings a;
        listening := listening a; console := console a |}).





Section Boot.

Context {User Store : Type} `{UM : UserModel User Store}.
Variable env : Env.
Variable validateRequest : value -> Request -> bool.
Variable generateToken : value -> Request -> string.

(** [process.env.DBCONNECTIONSTRING] and the directory of the entry
    file. *)
Variable DBCONNECTIONSTRING : option string.
Variable dirname : string.

(** [mongoose.connect(uri)]: how the connection attempt ends. *)
Variable connect : string -> completion unit.





Definition setupCSRFProtection : Eff.eff Server unit :=
  app_use (map Express.layer_name
         (App.setupCSRFProtection (Store := Store) env validateRequest generateToken)).

Definition setupGlobalMiddlewaresAndRoutes : Eff.eff Server unit :=
  app_use (map Express.layer_name (App.setupGlobalMiddlewaresAndRoutes env)).




End Boot.

End Startup.

(** ** Notions used in the statements about validation and secrets *)

Module Notions.

Import Regex.

(** How often a character occurs in a string. *)
Fixpoint count_char (d : ascii) (s : string) : nat :=
  match s with
  | EmptyString => 0%nat
  | String c s' => ((if Ascii.eqb c d then 1 else 0) + count_char d s')%nat
  end.

Definition not_space (c : ascii) : bool := negb (is_space c).

(** [0-9a-f] *)
Definition is_lower_hex (c : ascii) : bool :=
  let n := N_of_ascii c in
  ((48 <=? n) && (n <=? 57) || (97 <=? n) && (n <=? 102))%N.

(** The characters of a printed number: digits and the sign. *)
Definition digit_or_sign (c : ascii) : bool :=
  Jsonwebtoken.is_digit c || Ascii.eqb c "-".

(** The three errors of [validateUserData]. *)
Definition required_error : error :=
  mkError "All fields (name, surname, email, password) are required.".

Definition email_error : error := mkError "Invalid email format.".

Definition password_error : error :=
  mkError "Password must be at least 8 characters long.".

(** A user model whose store cannot be reached: every call is
    rejected. *)
Definition unreachable : UserModel unit unit :=
  {| findOne := fun _ _ => Throw (mkError "connection lost");
     createRecord := fun _ st => (Throw (mkError "connection lost"), st);
     comparePassword := fun _ _ => Throw (mkError "connection lost");
     toJSON := fun _ => [];
     user_id := fun _ => VUndefined;
     user__id := fun _ => VUndefined;
     user_email := fun _ => VUndefined |}.

End Notions.

(** * The email pattern *)

Module RegexFacts.

Import Regex.

Lemma append_cons (c : ascii) (s t : string) :
  String c s +:+ t = String c (s +:+ t).
Proof. reflexivity. Qed.

Lemma append_nil_l (t : string) : "" +:+ t = t.
Proof. reflexivity. Qed.

Lemma append_nil_r (s : string) : s +:+ "" = s.
Proof.
  induction s as [|c s IH]; [reflexivity | rewrite append_cons, IH; reflexivity].
Qed.

Lemma append_assoc (s t u : string) : (s +:+ t) +:+ u = s +:+ (t +:+ u).
Proof.
  induction s as [|c s IH]; [reflexivity | rewrite !append_cons, IH; reflexivity].
Qed.

Lemma append_eq_nil (s t : string) : s +:+ t = "" -> s = "" /\ t = "".
Proof.
  destruct s; [rewrite append_nil_l; auto | rewrite append_cons; discriminate].
Qed.

Lemma append_eq_cons (s t : string) (c : ascii) (w : string) :
  s +:+ t = String c w ->
  (s = "" /\ t = String c w) \/ exists s', s = String c s' /\ w = s' +:+ t.
Proof.
  destruct s as [|c' s']; [rewrite append_nil_l | rewrite append_cons]; intros H.
  - left. auto.
  - injection H as -> <-. right. exists s'. auto.
Qed.

Lemma nullable_lang (r : regex) : nullable r = true <-> lang r "".
Proof.
  split.
  - induction r; simpl; intros H; try discriminate.
    + constructor.
    + apply andb_true_iff in H as [H1 H2].
      change "" with ("" +:+ ""). constructor; auto.
    + apply orb_true_iff in H as [H|H]; [apply lang_alt_l | apply lang_alt_r]; auto.
    + constructor.
  - intros H. remember "" as w eqn:Hw.
    induction H; simpl; subst; try reflexivity; try discriminate.
    + apply append_eq_nil in Hw as [-> ->]. rewrite IHlang1, IHlang2; reflexivity.
    + rewrite IHlang; reflexivity.
    + rewrite IHlang, orb_true_r; reflexivity.
Qed.

Lemma deriv_sound (c : ascii) (r : regex) (s : string) :
  lang (deriv c r) s -> lang r (String c s).
Proof.
  revert s. induction r as [| |p|r1 IH1 r2 IH2|r1 IH1 r2 IH2|r IH];
    simpl; intros s H.
  - inversion H.
  - inversion H.
  - destruct (p c) eqn:Hp; inversion H; subst. constructor. exact Hp.
  - destruct (nullable r1) eqn:Hn.
    + inversion H as [| | | ? ? ? H1 | ? ? ? H1 | |]; subst.
      * inversion H1 as [| |? ? u v Hu Hv| | | |]; subst.
        change (String c (u +:+ v)) with (String c u +:+ v).
        constructor; auto.
      * change (String c s) with ("" +:+ String c s).
        constructor; [apply nullable_lang; exact Hn | auto].
    + inversion H as [| |? ? u v Hu Hv| | | |]; subst.
      change (String c (u +:+ v)) with (String c u +:+ v).
      constructor; auto.
  - inversion H; subst; [apply lang_alt_l | apply lang_alt_r]; auto.
  - inversion H as [| |? ? u v Hu Hv| | | |]; subst.
    change (String c (u +:+ v)) with (String c u +:+ v).
    constructor; auto.
Qed.

Lemma deriv_complete (c : ascii) (r : regex) (w : string) :
  lang r w -> forall s, w = String c s -> lang (deriv c r) s.
Proof.
  induction 1 as [|p c0 Hp|r1 r2 u v Hu IHu Hv IHv|r1 r2 u Hu IHu
                  |r1 r2 u Hu IHu|r|r u v Hu IHu Hv IHv];
    intros s Hw; simpl.
  - discriminate.
  - injection Hw as -> <-. rewrite Hp. constructor.
  - apply append_eq_cons in Hw as [[-> ->] | (u' & -> & ->)].
    + assert (Hn : nullable r1 = true) by (apply nullable_lang; exact Hu).
      rewrite Hn. apply lang_alt_r. apply IHv. reflexivity.
    + assert (Hc : lang (Cat (deriv c r1) r2) (u' +:+ v)).
      { constructor; [apply IHu; reflexivity | exact Hv]. }
      destruct (nullable r1); [apply lang_alt_l|]; exact Hc.
  - apply lang_alt_l. auto.
  - apply lang_alt_r. auto.
  - discriminate.
  - apply append_eq_cons in Hw as [[-> ->] | (u' & -> & ->)].
    + apply IHv. reflexivity.
    + constructor; [apply IHu; reflexivity | exact Hv].
Qed.

(** [matches] decides the language of the expression. *)
Theorem matches_lang (r : regex) (s : string) : matches r s = true <-> lang r s.
Proof.
  revert r. induction s as [|c s IH]; intros r; simpl.
  - apply nullable_lang.
  - rewrite IH. split.
    + apply deriv_sound.
    + intros H. exact (deriv_complete c r _ H s eq_refl).
Qed.

Lemma lang_star_class (p : ascii -> bool) (s : string) :
  lang (Star (Class p)) s <-> all_chars p s = true.
Proof.
  rewrite <- matches_lang.
  induction s as [|c s IH]; simpl; [tauto|].
  destruct (p c); simpl.
  - rewrite <- IH. rewrite !matches_lang. split.
    + intros H. inversion H as [| |? ? u v Hu Hv| | | |]; subst.
      inversion Hu; subst. exact Hv.
    + intros H. change s with ("" +:+ s). constructor; [constructor | exact H].
  - split; [|discriminate]. rewrite matches_lang. intros H.
    inversion H as [| |? ? u v Hu Hv| | | |]; subst. inversion Hu.
Qed.

Lemma lang_plus_class (p : ascii -> bool) (s : string) :
  lang (Plus (Class p)) s <-> s <> "" /\ all_chars p s = true.
Proof.
  unfold Plus. split.
  - intros H. inversion H as [| |? ? u v Hu Hv| | | |]; subst.
    inversion Hu; subst. rewrite append_cons, append_nil_l. simpl.
    split; [discriminate|].
    apply lang_star_class in Hv. rewrite Hv, andb_true_r. assumption.
  - intros [Hne Hall]. destruct s as [|c s]; [contradiction|].
    simpl in Hall. apply andb_true_iff in Hall as [Hc Hs].
    change (String c s) with (String c "" +:+ s).
    constructor; [constructor; exact Hc | apply lang_star_class; exact Hs].
Qed.

Lemma lang_char (d : ascii) (s : string) :
  lang (Class (is_char d)) s <-> s = String d "".
Proof.
  split.
  - intros H. inversion H as [|? c Hc| | | | |]; subst.
    unfold is_char in Hc. apply Ascii.eqb_eq in Hc. subst. reflexivity.
  - intros ->. constructor. unfold is_char. apply Ascii.eqb_refl.
Qed.

Lemma lang_cat (r1 r2 : regex) (s : string) :
  lang (Cat r1 r2) s <-> exists u v, s = u +:+ v /\ lang r1 u /\ lang r2 v.
Proof.
  split.
  - intros H. inversion H; subst. eauto.
  - intros (u & v & -> & Hu & Hv). constructor; assumption.
Qed.

(** The pattern of [validateUserData] accepts the strings of the
    shape [local@domain.tld], and no others. *)
Theorem emailRegex_shape (s : string) :
  matches UserController.emailRegex s = true <-> email_shape s.
Proof.
  rewrite matches_lang. unfold UserController.emailRegex, email_shape, part.
  split.
  - intros H.
    apply lang_cat in H as (l & v1 & -> & Hl & H).
    apply lang_cat in H as (a & v2 & -> & Ha & H).
    apply lang_cat in H as (d & v3 & -> & Hd & H).
    apply lang_cat in H as (o & t & -> & Ho & Ht).
    apply lang_char in Ha, Ho. subst a o.
    apply lang_plus_class in Hl, Hd, Ht.
    exists l, d, t. auto.
  - intros (l & d & t & -> & Hl & Hd & Ht).
    apply lang_plus_class in Hl, Hd, Ht.
    repeat (apply lang_cat; eexists _, _; split; [reflexivity|]; split);
      try assumption; apply lang_char; reflexivity.
Qed.

End RegexFacts.

(** * Registration *)

Module RegistrationFacts.

Import UserController Statements.

(** The identifier [validateUserData] is bound in no frame of the
    scope chain of [create]. *)
Lemma validateUserData_unbound :
  Scope.resolve "validateUserData" Scope.create_chain = None.
Proof. reflexivity. Qed.

Lemma call_validateUserData (arg : obj) :
  Scope.call Scope.create_chain "validateUserData" arg
  = Throw (ReferenceError not_defined).
Proof. unfold Scope.call. rewrite validateUserData_unbound. reflexivity. Qed.

Section Create.

Context {User Store : Type} `{UM : UserModel User Store}.
Variable env : Env.

Lemma create_try_with_body (req : Request) (b : obj) (st : Store) :
  req_body req = Some b ->
  create_try env req st = (Throw (ReferenceError not_defined), st).
Proof.
  intros Hb. unfold create_try. rewrite Hb.
  unfold Eff.bind, Eff.pure. rewrite call_validateUserData. reflexivity.
Qed.

Lemma create_try_without_body (req : Request) (st : Store) :
  req_body req = None ->
  create_try env req st
  = (Normal (respond 400 (json_of [("error", VStr "Request body is missing.")])), st).
Proof. intros Hb. unfold create_try. rewrite Hb. reflexivity. Qed.

Lemma create_with_body (req : Request) (b : obj) (st : Store) :
  req_body req = Some b ->
  create env req st
  = (Normal (respond 400 (json_of [("error", VStr not_defined)])), st).
Proof.
  intros Hb. unfold create, Eff.try_catch.
  rewrite (create_try_with_body req b st Hb). reflexivity.
Qed.

Lemma create_without_body (req : Request) (st : Store) :
  req_body req = None ->
  create env req st
  = (Normal (respond 400 (json_of [("error", VStr "Request body is missing.")])), st).
Proof.
  intros Hb. unfold create, Eff.try_catch.
  rewrite (create_try_without_body req st Hb). reflexivity.
Qed.

End Create.

(** *** The method [validateUserData], which [create] never reaches *)

Lemma validateUserData_required (o : obj) :
  truthy (get "name" o) && truthy (get "surname" o)
    && truthy (get "email" o) && truthy (get "password" o) = false ->
  validateUserData o
  = Throw (mkError "All fields (name, surname, email, password) are required.").
Proof.
  intros H. unfold validateUserData.
  destruct (truthy (get "name" o)), (truthy (get "surname" o)),
    (truthy (get "email" o)), (truthy (get "password" o));
    simpl in *; try discriminate; reflexivity.
Qed.

Lemma validateUserData_email (o : obj) :
  truthy (get "name" o) && truthy (get "surname" o)
    && truthy (get "email" o) && truthy (get "password" o) = true ->
  emailRegex_test (get "email" o) = false ->
  validateUserData o = Throw (mkError "Invalid email format.").
Proof.
  intros H He. unfold validateUserData.
  destruct (truthy (get "name" o)), (truthy (get "surname" o)),
    (truthy (get "email" o)), (truthy (get "password" o));
    simpl in *; try discriminate.
  rewrite He. reflexivity.
Qed.

Lemma validateUserData_password (o : obj) (pw : string) :
  truthy (get "name" o) && truthy (get "surname" o)
    && truthy (get "email" o) = true ->
  emailRegex_test (get "email" o) = true ->
  get "password" o = VStr pw ->
  pw <> "" ->
  (String.length pw < 8)%nat ->
  validateUserData o
  = Throw (mkError "Password must be at least 8 characters long.").
Proof.
  intros H He Hp Hne Hlen. unfold validateUserData. rewrite Hp, He.
  destruct (truthy (get "name" o)), (truthy (get "surname" o)),
    (truthy (get "email" o)); simpl in *; try discriminate.
  destruct (String.eqb_spec pw ""); [contradiction|]. simpl.
  destruct (Z.ltb_spec (Z.of_nat (String.length pw)) 8); [reflexivity | lia].
Qed.

Lemma validateUserData_accepts (o : obj) (pw : string) :
  truthy (get "name" o) && truthy (get "surname" o)
    && truthy (get "email" o) = true ->
  emailRegex_test (get "email" o) = true ->
  get "password" o = VStr pw ->
  (8 <= String.length pw)%nat ->
  validateUserData o = Normal tt.
Proof.
  intros H He Hp Hlen. unfold validateUserData. rewrite Hp, He.
  destruct (truthy (get "name" o)), (truthy (get "surname" o)),
    (truthy (get "email" o)); simpl in *; try discriminate.
  destruct (String.eqb_spec pw "") as [->|_]; [simpl in Hlen; lia|]. simpl.
  destruct (Z.ltb_spec (Z.of_nat (String.length pw)) 8); [lia | reflexivity].
Qed.

(** A registration whose four fields are non-empty strings, whose
    email has the shape [local@domain.tld] and whose password has
    eight characters or more passes the method. *)
Lemma validateUserData_valid (o : obj) (nm sn em pw : string) :
  get "name" o = VStr nm -> get "surname" o = VStr sn ->
  get "email" o = VStr em -> get "password" o = VStr pw ->
  nm <> "" -> sn <> "" ->
  Regex.email_shape em ->
  (8 <= String.length pw)%nat ->
  validateUserData o = Normal tt.
Proof.
  intros Hn Hs He Hp Hnm Hsn Hem Hpw.
  assert (Hne : em <> "").
  { destruct Hem as (l & d & t & -> & [Hl _] & _).
    destruct l; [contradiction | discriminate]. }
  apply (validateUserData_accepts o pw); [| |exact Hp|exact Hpw].
  - rewrite Hn, Hs, He. simpl.
    destruct (String.eqb_spec nm ""), (String.eqb_spec sn ""),
      (String.eqb_spec em ""); try contradiction; reflexivity.
  - rewrite He. unfold emailRegex_test. simpl.
    apply RegexFacts.emailRegex_shape. exact Hem.
Qed.

End RegistrationFacts.

Module Registration.

Import UserController Statements RegistrationFacts Sample CredentialStore.

(** C1.  The registration of the spec's scenario is valid (the method
    [validateUserData] accepts it, its password has ten characters) and
    its email is in no record of the empty store; [create] answers it
    with 400 and the message of the ReferenceError, not with 201 and the
    stored user, and stores nothing. *)
Theorem create_valid_registration_answers_400 :
  validateUserData alice = Normal tt /\
  get "role" alice = VUndefined /\
  lookup_email "a@b.com" [] = None /\
  create (UM := store_model) (env_of "mongo" "JWT") (post "/users" (Some alice)) []
  = (Normal (respond 400 (json_of [("error", VStr not_defined)])), []).
Proof. repeat split. Qed.

(** C2, as stated, fails: a request without a body is answered by the
    guard on [req.body]; the [try] block returns, nothing is thrown and
    the [catch] branch is not entered. *)
Lemma create_without_body_does_not_throw :
  ~ exists e,
      fst (create_try (UM := store_model) (env_of "mongo" "JWT")
             (post "/users" None) [])
      = Throw e.
Proof. intros [e He]. vm_compute in He. discriminate He. Qed.

(** C2, amended.  For every request that has a body, the [try] block
    of [create] throws the ReferenceError of the unbound identifier
    [validateUserData] before any validation or store access, and the
    [catch] branch answers 400 with its message; a request without a
    body is answered 400 by the guard on [req.body].  Either way the
    answer is 400, never 201, and the store is left as it was. *)
Theorem create_always_answers_400
    {User Store : Type} `{UM : UserModel User Store}
    (env : Env) (req : Request) (st : Store) :
  match req_body req with
  | Some _ =>
      create_try env req st = (Throw (ReferenceError not_defined), st) /\
      create env req st
      = (Normal (respond 400 (json_of [("error", VStr not_defined)])), st)
  | None =>
      create_try env req st
      = (Normal (respond 400 (json_of [("error", VStr "Request body is missing.")])), st) /\
      create env req st
      = (Normal (respond 400 (json_of [("error", VStr "Request body is missing.")])), st)
  end /\
  exists r, create env req st = (Normal r, st) /\ status r = 400 /\ status r <> 201.
Proof.
  destruct (req_body req) as [b|] eqn:Hb.
  - split.
    + split; [exact (create_try_with_body env req b st Hb)
             | exact (create_with_body env req b st Hb)].
    + eexists. split; [exact (create_with_body env req b st Hb)|].
      split; [reflexivity | discriminate].
  - split.
    + split; [exact (create_try_without_body env req st Hb)
             | exact (create_without_body env req st Hb)].
    + eexists. split; [exact (create_without_body env req st Hb)|].
      split; [reflexivity | discriminate].
Qed.

(** C7.  Three invalid registrations, one per check: the method
    [validateUserData] would throw the matching error, but [create]
    answers each with 400 and the message of the ReferenceError. *)
Theorem create_invalid_registration_message :
  let register o :=
    create (UM := store_model) (env_of "mongo" "JWT") (post "/users" (Some o)) [] in
  let answer := (Normal (respond 400 (json_of [("error", VStr not_defined)])), []) in
  validateUserData missing_fields
  = Throw (mkError "All fields (name, surname, email, password) are required.") /\
  register missing_fields = answer /\
  validateUserData bad_email = Throw (mkError "Invalid email format.") /\
  register bad_email = answer /\
  validateUserData short_password
  = Throw (mkError "Password must be at least 8 characters long.") /\
  register short_password = answer.
Proof. repeat split. Qed.

(** C8.  The store holds a record for [a@b.com]; a registration with
    that email is answered with 400 and the message of the
    ReferenceError, not with the conflict message: the lookup is never
    made.  The store is left as it was. *)
Theorem create_duplicate_email_message :
  findOne (UserModel := store_model) (QEmail (get "email" alice)) [alice_record]
  = Normal (Some alice_record) /\
  create (UM := store_model) (env_of "mongo" "JWT") (post "/users" (Some alice))
    [alice_record]
  = (Normal (respond 400 (json_of [("error", VStr not_defined)])), [alice_record]) /\
  not_defined <> "User with this email already exists.".
Proof. repeat split. discriminate. Qed.

End Registration.

(** * Login *)

Module LoginFacts.

Import UserController Statements.

Section Facts.

Context {User Store : Type} `{UM : UserModel User Store}.
Variable env : Env.

(** Both causes of failure make [validateUser] return [null]. *)
Lemma validateUser_rejected (st : Store) (email password : value) :
  rejected env st email password ->
  validateUser env email password st = Normal None.
Proof.
  unfold validateUser. intros [Hnone | (u & Hsome & Hcmp)].
  - rewrite Hnone. reflexivity.
  - rewrite Hsome, Hcmp. reflexivity.
Qed.

(** ... and nothing else does. *)
Lemma validateUser_null (st : Store) (email password : value) :
  validateUser env email password st = Normal None ->
  rejected env st email password.
Proof.
  unfold validateUser, rejected.
  destruct (find_by_email env email st) as [[u|]|e] eqn:Hf; [|auto|discriminate].
  destruct (comparePassword u password) as [[|]|e] eqn:Hc; try discriminate.
  intros _. right. exists u. auto.
Qed.

(** The user [validateUser] returns is the record found, and it
    accepted the password. *)
Lemma validateUser_some (st : Store) (email password : value) (u : User) :
  validateUser env email password st = Normal (Some u) ->
  find_by_email env email st = Normal (Some u) /\
  comparePassword u password = Normal true.
Proof.
  unfold validateUser.
  destruct (find_by_email env email st) as [[u'|]|e] eqn:Hf; try discriminate.
  destruct (comparePassword u' password) as [[|]|e] eqn:Hc; try discriminate.
  intros [= ->]. auto.
Qed.

End Facts.

(** The time span of the token. *)
Lemma ms_one_hour : Jsonwebtoken.ms "1h" = Some 3600000.
Proof. reflexivity. Qed.

Lemma sign_one_hour (payload : obj) (secret : string) (now_ms : Z) :
  Jsonwebtoken.sign payload secret "1h" now_ms
  = Normal {| jwt_claims :=
                Jsonwebtoken.serialised
                  (payload ++ [("iat", VNum (now_ms / 1000));
                               ("exp", VNum (now_ms / 1000 + 3600))])%list;
              jwt_key := secret |}.
Proof. unfold Jsonwebtoken.sign. rewrite ms_one_hour. reflexivity. Qed.

(** The claims of a token made from an [id] and an [email]: reading
    them gives the two values back, also when one of them is
    [undefined] and its property is left out. *)
Lemma token_claims (a b : value) (iat exp : Z) :
  let claims :=
    Jsonwebtoken.serialised
      ([("id", a); ("email", b)] ++ [("iat", VNum iat); ("exp", VNum exp)])%list in
  get "id" claims = a /\ get "email" claims = b /\
  get "iat" claims = VNum iat /\ get "exp" claims = VNum exp /\
  forall k v, In (k, v) claims ->
    (k = "id" \/ k = "email" \/ k = "iat" \/ k = "exp") /\ v <> VUndefined.
Proof.
  destruct a, b; cbn; repeat split; try discriminate;
    repeat match goal with
           | H : _ \/ _ |- _ => destruct H as [H|H]
           | H : (_, _) = (_, _) |- _ => injection H as <- <-
           | H : False |- _ => destruct H
           end; auto; discriminate.
Qed.

Lemma env_is_true (v : option string) (s : string) :
  env_is v s = true <-> v = Some s.
Proof.
  unfold env_is. destruct v as [x|]; [|split; discriminate].
  destruct (String.eqb_spec x s); split; congruence.
Qed.

Lemma env_is_false (v : option string) (s : string) :
  env_is v s = false <-> v <> Some s.
Proof.
  rewrite <- env_is_true. destruct (env_is v s); split; congruence.
Qed.

Lemma json_of_no_token (o : obj) :
  (forall k v, In (k, v) o -> k <> "token") -> no_token (json_of o).
Proof.
  intros Hk k v Hin. unfold json_of in Hin. apply in_map_iff in Hin.
  destruct Hin as ([k' v'] & [= <- <-] & Hin). split.
  - exact (Hk _ _ Hin).
  - discriminate.
Qed.

End LoginFacts.

Module Login.

Import UserController Statements LoginFacts Sample CredentialStore.

Section Claims.

Context {User Store : Type} `{UM : UserModel User Store}.
Variable env : Env.

(** C3.  Two login attempts, each failing because no record exists for
    its email or because the record found rejects its password, get the
    same answer: status 401 with the one error "Invalid email or
    password".  The session is left as it was. *)
Theorem login_rejections_indistinguishable
    (now1 now2 : Z) (st1 st2 : Store) (req1 req2 : Request) (b1 b2 : obj) :
  req_body req1 = Some b1 ->
  req_body req2 = Some b2 ->
  rejected env st1 (get "email" b1) (get "password" b1) ->
  rejected env st2 (get "email" b2) (get "password" b2) ->
  login env now1 st1 req1 = Normal (invalid_credentials, req_session req1) /\
  login env now2 st2 req2 = Normal (invalid_credentials, req_session req2) /\
  status invalid_credentials = 401 /\
  body invalid_credentials = [("error", JVal (VStr "Invalid email or password"))].
Proof.
  intros Hb1 Hb2 H1 H2. unfold login. rewrite Hb1, Hb2.
  rewrite (validateUser_rejected env st1 _ _ H1).
  rewrite (validateUser_rejected env st2 _ _ H2).
  repeat split.
Qed.

(** C4.  In token mode a login with valid credentials answers 200 with
    a token signed with the server's secret.  Its claims are the id
    and the email of the user, the time of issue and an expiry 3600
    seconds later, and nothing else (a value that is [undefined] has no
    property in the token and reads as [undefined]).  The session is
    returned as it was. *)
Theorem login_token_mode
    (now_ms : Z) (st : Store) (req : Request) (b : obj) (u : User) :
  TYPEAUTH env = Some "JWT" ->
  req_body req = Some b ->
  validateUser env (get "email" b) (get "password" b) st = Normal (Some u) ->
  exists token,
    login env now_ms st req
    = Normal (respond 200 [("token", JJwt token)], req_session req) /\
    let claims := Jsonwebtoken.decode token in
    claims
    = Jsonwebtoken.serialised
        [("id", or_else (user_id u) (user__id u)); ("email", user_email u);
         ("iat", VNum (now_ms / 1000)); ("exp", VNum (now_ms / 1000 + 3600))] /\
    get "id" claims = or_else (user_id u) (user__id u) /\
    get "email" claims = user_email u /\
    get "iat" claims = VNum (now_ms / 1000) /\
    get "exp" claims = VNum (now_ms / 1000 + 3600) /\
    (forall k v, In (k, v) claims ->
       (k = "id" \/ k = "email" \/ k = "iat" \/ k = "exp") /\ v <> VUndefined) /\
    Jsonwebtoken.verify_signature token (env_or (JWTSECRET env) "defaultsecret")
    = true.
Proof.
  intros Hmode Hb Hu. unfold login. rewrite Hb, Hu.
  apply env_is_true in Hmode. rewrite Hmode, sign_one_hour.
  eexists. split; [reflexivity|].
  pose proof (token_claims (or_else (user_id u) (user__id u)) (user_email u)
                (now_ms / 1000) (now_ms / 1000 + 3600))
    as (Hid & Hemail & Hiat & Hexp & Hkeys).
  cbv zeta. unfold Jsonwebtoken.decode. cbn [jwt_claims].
  split; [reflexivity|]. split; [exact Hid|]. split; [exact Hemail|].
  split; [exact Hiat|]. split; [exact Hexp|]. split; [exact Hkeys|].
  unfold Jsonwebtoken.verify_signature. cbn [jwt_key]. apply String.eqb_refl.
Qed.

(** C5, amended.  In session mode a login with valid credentials writes
    the id and the email of the user into the session and answers 200
    with the message "Logged in successfully" and no token.  [login]
    itself saves nothing: when the response ends the session
    middleware writes the session to the store.  If the store accepts
    the write, the store then holds that session under the session id;
    if it refuses, the store is left as it was, and the answer is the
    same 200. *)
Theorem login_session_mode
    (now_ms : Z) (st : Store) (req : Request) (b : obj) (u : User) :
  TYPEAUTH env = Some "session" ->
  req_body req = Some b ->
  validateUser env (get "email" b) (get "password" b) st = Normal (Some u) ->
  let s' := {| csrfSecret := csrfSecret (req_session req);
               user := Some (identity u) |} in
  let answer := respond 200 (json_of [("message", VStr "Logged in successfully")]) in
  login env now_ms st req = Normal (answer, s') /\
  no_token (body answer) /\
  forall c : App.Ctx (Store := Store),
    App.ctx_req c = req ->
    let stored := App.ctx_sessions (App.session_end (App.set_session s' c)) in
    match hd None (App.ctx_set_errors c) with
    | None =>
        (App.ctx_saved c = s' ->
         App.ctx_sessions c !! req_sessionID req = Some s') ->
        stored !! req_sessionID req = Some s'
    | Some _ => stored = App.ctx_sessions c
    end.
Proof.
  intros Hmode Hb Hu s' answer. split; [|split].
  - unfold login. rewrite Hb, Hu.
    assert (Hjwt : env_is (TYPEAUTH env) "JWT" = false).
    { apply env_is_false. rewrite Hmode. discriminate. }
    apply env_is_true in Hmode. rewrite Hjwt, Hmode. reflexivity.
  - apply json_of_no_token. intros k v [[= <- <-]|[]]. discriminate.
  - intros c Hreq. cbv zeta. unfold App.session_end.
    cbn [App.set_session App.ctx_req App.ctx_saved req_session].
    case_bool_decide as Hsaved.
    + cbn [App.set_session App.ctx_sessions].
      destruct (hd None (App.ctx_set_errors c)); [reflexivity|].
      intros Hheld. rewrite <- Hreq in Hheld |- *. apply Hheld.
      symmetry. exact Hsaved.
    + unfold App.session_save.
      cbn [App.set_session App.ctx_set_errors App.ctx_req App.ctx_sessions
           req_session req_sessionID].
      destruct (App.ctx_set_errors c) as [|[e|] rest];
        cbn [hd snd App.set_store App.ctx_sessions]; try reflexivity;
        intros _; rewrite <- Hreq; apply lookup_insert_eq.
Qed.

(** C6.  With valid credentials and an authentication mode that is
    neither "JWT" nor "session", [login] answers 500 with a
    misconfiguration error; the session is left as it was. *)
Theorem login_misconfigured
    (now_ms : Z) (st : Store) (req : Request) (b : obj) (u : User) :
  TYPEAUTH env <> Some "JWT" ->
  TYPEAUTH env <> Some "session" ->
  req_body req = Some b ->
  validateUser env (get "email" b) (get "password" b) st = Normal (Some u) ->
  let answer := respond 500 (json_of [("error", VStr "Invalid authentication type")]) in
  login env now_ms st req = Normal (answer, req_session req) /\
  500 <= status answer < 600.
Proof.
  intros Hj Hs Hb Hu answer. unfold login. rewrite Hb, Hu.
  apply env_is_false in Hj, Hs. rewrite Hj, Hs. split; [reflexivity|].
  simpl. lia.
Qed.

End Claims.

(** The claims at the scenario of the spec: the store holds the user
    [a@b.com] with the password "longenough". *)

Lemma login_rejections_witness :
  let attempt email pw :=
    login (UM := store_model) (env_of "mongo" "JWT") 0 [alice_record]
      (post "/login" (Some (credentials email pw))) in
  attempt "x@b.com" "longenough" = Normal (invalid_credentials, no_session) /\
  attempt "a@b.com" "wrong" = Normal (invalid_credentials, no_session).
Proof.
  pose proof
    (login_rejections_indistinguishable (UM := store_model)
       (env_of "mongo" "JWT") 0 0 [alice_record] [alice_record]
       (post "/login" (Some (credentials "x@b.com" "longenough")))
       (post "/login" (Some (credentials "a@b.com" "wrong")))
       _ _ eq_refl eq_refl
       (or_introl eq_refl)
       (or_intror (ex_intro _ alice_record (conj eq_refl eq_refl)))) as H.
  simpl. split; [exact (proj1 H) | exact (proj1 (proj2 H))].
Defined.

Lemma login_token_mode_witness :
  exists token,
    login (UM := store_model) (env_of "mysql" "JWT") 1700000000123 [alice_record]
      (post "/login" (Some (credentials "a@b.com" "longenough")))
    = Normal (respond 200 [("token", JJwt token)], no_session) /\
    Jsonwebtoken.decode token
    = [("id", VNum 1); ("email", VStr "a@b.com");
       ("iat", VNum 1700000000); ("exp", VNum 1700003600)].
Proof.
  destruct
    (login_token_mode (UM := store_model) (env_of "mysql" "JWT") 1700000000123
       [alice_record]
       (post "/login" (Some (credentials "a@b.com" "longenough")))
       _ alice_record eq_refl eq_refl eq_refl) as (token & Hlogin & Hclaims & _).
  exists token. split; [exact Hlogin | exact Hclaims].
Defined.

(** C5, as stated, fails: the login of the scenario in session mode,
    with a session store that refuses the write at the end of the
    response.  The answer is the 200 of a successful login, and the
    store holds no session. *)
Lemma login_session_not_persisted :
  let req := post "/login" (Some (credentials "a@b.com" "longenough")) in
  let s' := {| csrfSecret := VUndefined;
               user := Some {| su_id := VNum 1; su_email := VStr "a@b.com" |} |} in
  let c := App.set_store ∅ [Some (mkError "store unavailable")]
             (arriving req no_session) in
  login (UM := store_model) (env_of "mongo" "session") 0 [alice_record] req
  = Normal (respond 200 (json_of [("message", VStr "Logged in successfully")]), s') /\
  App.ctx_sessions (App.session_end (App.set_session s' c)) !! "sid-1" = None.
Proof. split; vm_compute; reflexivity. Qed.

Lemma login_session_mode_witness :
  let req := post "/login" (Some (credentials "a@b.com" "longenough")) in
  let s' := {| csrfSecret := VUndefined;
               user := Some {| su_id := VNum 1; su_email := VStr "a@b.com" |} |} in
  login (UM := store_model) (env_of "mongo" "session") 0 [alice_record] req
  = Normal
      (respond 200 (json_of [("message", VStr "Logged in successfully")]), s') /\
  App.ctx_sessions (App.session_end (App.set_session s' (arriving req no_session)))
    !! "sid-1" = Some s'.
Proof.
  intros req s'.
  destruct
    (login_session_mode (UM := store_model) (env_of "mongo" "session") 0
       [alice_record] req _ alice_record eq_refl eq_refl eq_refl)
    as (Hlogin & _ & Hstored).
  split; [exact Hlogin|].
  refine (Hstored (arriving req no_session) eq_refl _).
  intros Hsaved. discriminate Hsaved.
Defined.

Lemma login_misconfigured_witness :
  login (UM := store_model) (env_of "mongo" "JWS") 0 [alice_record]
    (post "/login" (Some (credentials "a@b.com" "longenough")))
  = Normal
      (respond 500 (json_of [("error", VStr "Invalid authentication type")]),
       no_session).
Proof.
  refine
    (proj1
       (login_misconfigured (UM := store_model) (env_of "mongo" "JWS") 0
          [alice_record]
          (post "/login" (Some (credentials "a@b.com" "longenough")))
          _ alice_record _ _ eq_refl eq_refl)); simpl; discriminate.
Defined.

End Login.

(** * The CSRF guard *)

Module CsrfFacts.

Import Express CsrfCsrf Crypto.

Lemma hex_length (bs : list Byte.byte) :
  String.length (hex bs) = (2 * length bs)%nat.
Proof. induction bs as [|b bs IH]; simpl; [reflexivity | rewrite IH; lia]. Qed.

Lemma unhex_hex_byte (b : Byte.byte) :
  match hex_value (hex_digit (Byte.to_N b / 16)),
        hex_value (hex_digit (Byte.to_N b mod 16)) with
  | Some h, Some l => Byte.of_N (16 * h + l) = Some b
  | _, _ => False
  end.
Proof. destruct b; vm_compute; reflexivity. Qed.

(** The hexadecimal form loses nothing of the bytes. *)
Lemma unhex_hex (bs : list Byte.byte) : unhex (hex bs) = Some bs.
Proof.
  induction bs as [|b bs IH]; [reflexivity|].
  cbn [hex unhex]. rewrite IH.
  pose proof (unhex_hex_byte b) as Hb.
  destruct (hex_value (hex_digit (Byte.to_N b / 16))) as [h|]; [|contradiction].
  destruct (hex_value (hex_digit (Byte.to_N b mod 16))) as [l|]; [|contradiction].
  rewrite Hb. reflexivity.
Qed.

Lemma hex_inj (bs1 bs2 : list Byte.byte) : hex bs1 = hex bs2 -> bs1 = bs2.
Proof.
  intros H. apply (f_equal unhex) in H. rewrite !unhex_hex in H. congruence.
Qed.

Lemma randomBytes_length (n : nat) (g : Rng) : length (fst (randomBytes n g)) = n.
Proof. unfold randomBytes. simpl. rewrite length_map, length_seq. reflexivity. Qed.

(** The bytes drawn are the next ones of the generator. *)
Lemma randomBytes_lookup (n : nat) (g : Rng) (i : nat) :
  (i < n)%nat ->
  fst (randomBytes n g) !! i = Some (rng_bytes g (rng_pos g + i)%nat).
Proof.
  intros Hi. unfold randomBytes. simpl.
  rewrite list_lookup_fmap, lookup_seq_lt by exact Hi. reflexivity.
Qed.

Lemma hex_truthy (bs : list Byte.byte) :
  bs <> [] -> truthy (VStr (hex bs)) = true.
Proof. destruct bs as [|b bs]; [congruence | reflexivity]. Qed.

Lemma is_ignored_safe (env : Env) (m : string) :
  is_ignored (App.csrfOptions env) m = true
  <-> m = "GET" \/ m = "HEAD" \/ m = "OPTIONS".
Proof.
  unfold is_ignored. simpl. rewrite !orb_true_iff.
  destruct (String.eqb_spec m "GET"), (String.eqb_spec m "HEAD"),
    (String.eqb_spec m "OPTIONS"); intuition discriminate.
Qed.

Section Dispatch.

Context {C : Type}.
Variable enter : string -> C -> C.

(** While an error is pending no regular middleware is entered: a
    stack of regular middlewares hands the error to the final
    handler and leaves the context as it was. *)
Lemma dispatch_error_skips (ls : list (layer C)) (e : next_error) (c : C) :
  forallb is_handler ls = true ->
  dispatch enter ls (Some e) c = (c, Answered (finalhandler (Some e))).
Proof.
  induction ls as [|[n h|n h] ls IH]; simpl; intros Hall.
  - reflexivity.
  - apply IH. exact Hall.
  - discriminate.
Qed.

Lemma dispatch_error_app (ls ls' : list (layer C)) (e : next_error) (c : C) :
  forallb is_handler ls = true ->
  dispatch enter (ls ++ ls') (Some e) c = dispatch enter ls' (Some e) c.
Proof.
  induction ls as [|[n h|n h] ls IH]; simpl; intros Hall.
  - reflexivity.
  - apply IH. exact Hall.
  - discriminate.
Qed.

End Dispatch.

Section Bootstrap.

Context {User Store : Type} `{UM : UserModel User Store}.
Variable env : Env.

(** The middleware, with the bytes drawn named. *)
Lemma csrfBootstrap_unfold (c : App.Ctx (Store := Store)) :
  App.csrfBootstrap c
  = if truthy (csrfSecret (req_session (App.ctx_req c))) then (c, Next)
    else
      let drawn := randomBytes 32 (App.ctx_rng c) in
      let c1 :=
        App.set_session
          {| csrfSecret := VStr (hex (fst drawn));
             user := user (req_session (App.ctx_req c)) |}
          (App.set_rng (snd drawn) c) in
      match App.session_save c1 with
      | (Some err, c2) => (c2, NextErr (plain_error err))
      | (None, c2) => (c2, Next)
      end.
Proof.
  unfold App.csrfBootstrap.
  destruct (truthy (csrfSecret (req_session (App.ctx_req c)))); reflexivity.
Qed.

Lemma csrfBootstrap_present (c : App.Ctx (Store := Store)) :
  truthy (csrfSecret (req_session (App.ctx_req c))) = true ->
  App.csrfBootstrap c = (c, Next).
Proof. intros H. rewrite csrfBootstrap_unfold, H. reflexivity. Qed.


End Bootstrap.

End CsrfFacts.

Module Csrf.

Import Express CsrfCsrf Crypto CsrfFacts Statements.

Section Claims.

Context {User Store : Type} `{UM : UserModel User Store}.
Variable env : Env.
Variable validateRequest : value -> Request -> bool.
Variable generateToken : value -> Request -> string.

Local Abbreviation Ctx := (App.Ctx (Store := Store)).

(** C9.  The bootstrap middleware keeps one CSRF secret per session.
    A session that holds a secret passes unchanged.  Otherwise the
    secret becomes the hexadecimal form of 32 bytes drawn from the
    random generator (64 digits, from which the bytes can be read
    back), and the session is saved under its id: when the store
    accepts the write, the next middleware is given a context whose
    store holds the session with the secret, and a later request that
    loads that session passes unchanged; when the store refuses, the
    error is handed to [next], no regular middleware behind runs and
    the request ends with status 500. *)
Theorem csrfBootstrap_one_secret (c : Ctx) :
  let s := req_session (App.ctx_req c) in
  let sid := req_sessionID (App.ctx_req c) in
  if truthy (csrfSecret s) then
    App.csrfBootstrap c = (c, Next)
  else
    let bytes := fst (randomBytes 32 (App.ctx_rng c)) in
    let s' := {| csrfSecret := VStr (hex bytes); user := user s |} in
    length bytes = 32%nat /\
    (forall i, (i < 32)%nat ->
       bytes !! i
       = Some (rng_bytes (App.ctx_rng c) (rng_pos (App.ctx_rng c) + i)%nat)) /\
    unhex (hex bytes) = Some bytes /\
    String.length (hex bytes) = 64%nat /\
    exists c' sg,
      App.csrfBootstrap c = (c', sg) /\
      req_session (App.ctx_req c') = s' /\
      req_sessionID (App.ctx_req c') = sid /\
      match hd None (App.ctx_set_errors c) with
      | None =>
          sg = Next /\
          App.ctx_sessions c' !! sid = Some s' /\
          App.csrfBootstrap c' = (c', Next) /\
          forall c2 : Ctx,
            req_sessionID (App.ctx_req c2) = sid ->
            App.ctx_sessions c2 = App.ctx_sessions c' ->
            App.csrfBootstrap (App.session_load c2) = (App.session_load c2, Next)
      | Some err =>
          sg = NextErr (plain_error err) /\
          App.ctx_sessions c' = App.ctx_sessions c /\
          forall ls : list (layer Ctx),
            forallb is_handler ls = true ->
            dispatch App.enter ls (Some (plain_error err)) c'
            = (c', Answered (respond 500 []))
      end.
Proof.
  intros s sid. rewrite csrfBootstrap_unfold. fold s.
  destruct (truthy (csrfSecret s)) eqn:Hs; [reflexivity|].
  intros bytes s'.
  assert (Hlen : length bytes = 32%nat)
    by exact (randomBytes_length 32 (App.ctx_rng c)).
  assert (Hdrawn : forall i, (i < 32)%nat ->
            bytes !! i
            = Some (rng_bytes (App.ctx_rng c) (rng_pos (App.ctx_rng c) + i)%nat))
    by exact (randomBytes_lookup 32 (App.ctx_rng c)).
  assert (Htruthy : truthy (csrfSecret s') = true).
  { apply hex_truthy. intros Hnil. rewrite Hnil in Hlen. discriminate. }
  split; [exact Hlen|]. split; [exact Hdrawn|].
  split; [apply unhex_hex|]. split; [rewrite hex_length, Hlen; reflexivity|].
  cbv zeta. change (fst (randomBytes 32 (App.ctx_rng c))) with bytes.
  fold s. change {| csrfSecret := VStr (hex bytes); user := user s |} with s'.
  clearbody s' bytes. unfold App.session_save.
  destruct (App.ctx_set_errors c) as [|[e|] rest] eqn:Herrs;
    cbn [App.set_session App.set_rng App.set_store App.ctx_set_errors
         App.ctx_req App.ctx_sessions req_session req_sessionID hd];
    rewrite ?Herrs; eexists _, _; (split; [reflexivity|]);
    cbn [App.ctx_req App.ctx_sessions req_session req_sessionID];
    fold sid; (split; [reflexivity|]); (split; [reflexivity|]);
    (split; [reflexivity|]).
  - split; [apply lookup_insert_eq|].
    split.
    + apply csrfBootstrap_present. exact Htruthy.
    + intros c2 Hsid Hstore. apply csrfBootstrap_present.
      unfold App.session_load. cbn [App.ctx_req req_session].
      rewrite Hstore, Hsid. cbn [App.ctx_sessions App.set_store].
      rewrite lookup_insert_eq. exact Htruthy.
  - split; [reflexivity|].
    intros ls Hls. apply dispatch_error_skips. exact Hls.
  - split; [apply lookup_insert_eq|].
    split.
    + apply csrfBootstrap_present. exact Htruthy.
    + intros c2 Hsid Hstore. apply csrfBootstrap_present.
      unfold App.session_load. cbn [App.ctx_req req_session].
      rewrite Hstore, Hsid. cbn [App.ctx_sessions App.set_store].
      rewrite lookup_insert_eq. exact Htruthy.
Qed.

End Claims.

Import Sample.

(** C10.  A login request without a proof token, in a session that
    holds a CSRF secret.  Its method is not GET, HEAD or OPTIONS, so the
    guard validates it; validation starts by reading the cookie
    [csrf-token] from [req.cookies], which no layer of the application
    has set.  The read throws, the error handed to [next] is that
    TypeError and not the 403 error of the guard, and the request ends
    with status 500 instead of a CSRF rejection; a request that does
    carry a valid proof fares the same.  The routes are not entered and
    the user store is as before. *)
Theorem csrf_guard_answers_500 :
  let req := post "/login" (Some (credentials "a@b.com" "longenough")) in
  let c := arriving req with_secret in
  let thrown :=
    plain_error
      (TypeError "Cannot read properties of undefined (reading 'csrf-token')") in
  is_ignored (App.csrfOptions (env_of "mongo" "session")) (req_method req) = false /\
  App.csrfProtection (env_of "mongo" "session") no_proof c = (c, NextErr thrown) /\
  App.csrfProtection (env_of "mongo" "session") any_proof c = (c, NextErr thrown) /\
  ne_status thrown = None /\
  ne_status invalidCsrfTokenError = Some 403 /\
  observe
    (dispatch App.enter
       (App.stack (UM := store_model) (env_of "mongo" "session") no_proof some_token)
       None c)
  = (Answered (respond 500 []),
     ["csrfBootstrap"; "doubleCsrfProtection"; "checkCSRFError"],
     None, [alice_record]).
Proof. repeat split. Qed.

End Csrf.

(** * Requests through the whole application *)

Module Scenario.

Import Express Sample.

(** A login with the right password and any proof token: the guard
    cannot read the cookie, the request ends with 500, the routes are
    not entered.  The new secret of the session has been saved. *)
Example login_through_the_stack :
  observe (App.handle (UM := store_model) (env_of "mongo" "session") any_proof
             some_token
             (arriving (post "/login" (Some (credentials "a@b.com" "longenough")))
                no_session))
  = (Answered (respond 500 []),
     ["csrfBootstrap"; "doubleCsrfProtection"; "checkCSRFError"],
     Some {| csrfSecret := VStr zero_secret; user := None |},
     [alice_record]).
Proof. vm_compute. reflexivity. Qed.

(** A registration fares the same. *)
Example register_through_the_stack :
  observe (App.handle (UM := store_model) (env_of "mongo" "session") any_proof
             some_token (arriving (post "/users" (Some alice)) no_session))
  = (Answered (respond 500 []),
     ["csrfBootstrap"; "doubleCsrfProtection"; "checkCSRFError"],
     Some {| csrfSecret := VStr zero_secret; user := None |},
     [alice_record]).
Proof. vm_compute. reflexivity. Qed.

(** A GET request passes the guard unchecked; the layer that sets
    [res.locals.csrfToken] then fails on the same read. *)
Example get_through_the_stack :
  observe (App.handle (UM := store_model) (env_of "mongo" "session") any_proof
             some_token
             (arriving
                {| req_method := "GET"; req_path := "/"; req_headers := [];
                   req_body := Some []; req_sessionID := "sid-1";
                   req_session := no_session |}
                no_session))
  = (Answered (respond 500 []),
     ["csrfBootstrap"; "doubleCsrfProtection"; "csrfLocals"; "checkCSRFError"],
     Some {| csrfSecret := VStr zero_secret; user := None |},
     [alice_record]).
Proof. vm_compute. reflexivity. Qed.

(** The session store refuses the write of the new secret: the request
    ends with 500 and only the bootstrap and the error handler were
    entered. *)
Example save_failure_through_the_stack :
  let c := arriving (post "/login" (Some (credentials "a@b.com" "longenough")))
             no_session in
  let c_failing :=
    App.set_store (App.ctx_sessions c) [Some (mkError "store unavailable")] c in
  observe (App.handle (UM := store_model) (env_of "mongo" "session") any_proof
             some_token c_failing)
  = (Answered (respond 500 []),
     ["csrfBootstrap"; "checkCSRFError"], None, [alice_record]).
Proof. vm_compute. reflexivity. Qed.

End Scenario.

(** * Validation of registration data *)

Module ValidationFacts.

Import Regex Notions UserController RegexFacts.

Lemma all_chars_app (p : ascii -> bool) (u v : string) :
  all_chars p (u +:+ v) = all_chars p u && all_chars p v.
Proof.
  induction u as [|c u IH]; [reflexivity|].
  rewrite append_cons. simpl. rewrite IH, andb_assoc. reflexivity.
Qed.

Lemma count_char_app (d : ascii) (u v : string) :
  count_char d (u +:+ v) = (count_char d u + count_char d v)%nat.
Proof.
  induction u as [|c u IH]; [reflexivity|].
  rewrite append_cons. simpl. rewrite IH. lia.
Qed.

Lemma length_app (u v : string) :
  String.length (u +:+ v) = (String.length u + String.length v)%nat.
Proof.
  induction u as [|c u IH]; [reflexivity|].
  rewrite append_cons. simpl. rewrite IH. reflexivity.
Qed.

(** A run admitted by [[^\s@]] has no white space and no [@]. *)
Lemma part_chars (u : string) :
  all_chars not_space_at u = true ->
  all_chars not_space u = true /\ count_char "@" u = 0%nat.
Proof.
  induction u as [|c u IH]; simpl; [auto|].
  intros H. apply andb_true_iff in H as [Hc Hu].
  destruct (IH Hu) as [IH1 IH2]. unfold not_space_at in Hc.
  apply andb_true_iff in Hc as [Hs Ha].
  change (not_space c) with (negb (is_space c)).
  rewrite Hs, IH1, IH2. apply negb_true_iff in Ha. rewrite Ha. auto.
Qed.

Lemma part_length (u : string) : part u -> (1 <= String.length u)%nat.
Proof. intros [Hne _]. destruct u; [contradiction | simpl; lia]. Qed.

Lemma pretty_N_char_digit (x : N) : digit_or_sign (pretty_N_char x) = true.
Proof. unfold pretty_N_char. repeat case_match; reflexivity. Qed.

Lemma pretty_N_go_chars (x : N) (s : string) :
  all_chars digit_or_sign s = true ->
  all_chars digit_or_sign (pretty_N_go x s) = true.
Proof.
  revert s. induction (N.lt_wf_0 x) as [x _ IH]; intros s Hs.
  assert (x = 0 \/ 0 < x)%N as [->|Hx] by lia.
  - rewrite pretty_N_go_0. exact Hs.
  - rewrite pretty_N_go_step by exact Hx. apply IH.
    + apply N.div_lt; [exact Hx | reflexivity].
    + simpl. rewrite pretty_N_char_digit, Hs. reflexivity.
Qed.

Lemma pretty_N_chars (x : N) : all_chars digit_or_sign (pretty x) = true.
Proof.
  unfold pretty, pretty_N. case_decide; [reflexivity|].
  apply pretty_N_go_chars. reflexivity.
Qed.

Lemma pretty_Z_chars (n : Z) : all_chars digit_or_sign (pretty n) = true.
Proof.
  destruct n as [|p|p]; unfold pretty, pretty_Z.
  - reflexivity.
  - apply (pretty_N_chars (Npos p)).
  - rewrite all_chars_app. apply andb_true_iff.
    split; [reflexivity | apply (pretty_N_chars (Npos p))].
Qed.

Lemma digits_no_at (s : string) :
  all_chars digit_or_sign s = true -> count_char "@" s = 0%nat.
Proof.
  induction s as [|c s IH]; simpl; [reflexivity|].
  intros H. apply andb_true_iff in H as [Hc Hs]. rewrite (IH Hs).
  destruct (Ascii.eqb_spec c "@") as [->|_]; [discriminate Hc | reflexivity].
Qed.

(** The string form of a value that is not a string has no [@]. *)
Lemma to_string_no_at (v : value) :
  match v with VStr _ => False | _ => True end ->
  count_char "@" (to_string v) = 0%nat.
Proof.
  destruct v as [| |[|]|n|s]; simpl; intros H; try reflexivity.
  - apply digits_no_at, pretty_Z_chars.
  - contradiction.
Qed.

Lemma email_shape_count (s : string) :
  email_shape s ->
  all_chars not_space s = true /\ count_char "@" s = 1%nat /\
  (5 <= String.length s)%nat.
Proof.
  intros (l & d & t & -> & Hl & Hd & Ht).
  pose proof (part_length l Hl). pose proof (part_length d Hd).
  pose proof (part_length t Ht).
  destruct Hl as [_ Hl], Hd as [_ Hd], Ht as [_ Ht].
  apply part_chars in Hl as [Hl1 Hl2], Hd as [Hd1 Hd2], Ht as [Ht1 Ht2].
  rewrite !all_chars_app, !count_char_app, !length_app.
  rewrite Hl1, Hd1, Ht1, Hl2, Hd2, Ht2. simpl. repeat split; lia.
Qed.

Lemma emailRegex_test_not_string (v : value) :
  match v with VStr _ => False | _ => True end ->
  emailRegex_test v = false.
Proof.
  intros Hv. destruct (emailRegex_test v) eqn:Ht; [|reflexivity].
  unfold emailRegex_test in Ht. apply emailRegex_shape in Ht.
  apply email_shape_count in Ht as (_ & Hc & _).
  rewrite (to_string_no_at v Hv) in Hc. discriminate.
Qed.

(** The outcome of the method, check by check. *)
Lemma validateUserData_cases (o : obj) :
  validateUserData o
  = if negb (truthy (get "name" o) && truthy (get "surname" o)
             && truthy (get "email" o) && truthy (get "password" o))
    then Throw required_error
    else if negb (emailRegex_test (get "email" o)) then Throw email_error
    else match get "password" o with
         | VStr pw =>
             if (String.length pw <? 8)%nat then Throw password_error
             else Normal tt
         | _ => Normal tt
         end.
Proof.
  unfold validateUserData.
  destruct (truthy (get "name" o)), (truthy (get "surname" o)),
    (truthy (get "email" o)), (truthy (get "password" o)) eqn:Hp;
    simpl; try reflexivity.
  destruct (emailRegex_test (get "email" o)); simpl; [|reflexivity].
  destruct (get "password" o) as [| |b|n|pw]; simpl in *; try discriminate;
    try reflexivity.
  destruct (Z.ltb_spec (Z.of_nat (String.length pw)) 8),
    (Nat.ltb_spec (String.length pw) 8); try lia; reflexivity.
Qed.

End ValidationFacts.

Module Validation.

Import Regex Notions UserController RegexFacts ValidationFacts.

(** X1.  On a string the pattern of [validateUserData] accepts the
    shape [local@domain.tld] and nothing else: three non-empty runs
    without white space and without [@], joined by one [@] and one
    dot. *)
Theorem emailRegex_test_shape (s : string) :
  emailRegex_test (VStr s) = true <-> email_shape s.
Proof. unfold emailRegex_test. simpl. apply emailRegex_shape. Qed.

(** X2.  An email the pattern accepts has no white space, exactly one
    [@] and at least five characters. *)
Theorem accepted_email_facts (s : string) :
  emailRegex_test (VStr s) = true ->
  all_chars not_space s = true /\ count_char "@" s = 1%nat /\
  (5 <= String.length s)%nat.
Proof.
  intros H. apply email_shape_count. unfold emailRegex_test in H.
  apply emailRegex_shape. exact H.
Qed.

(** X3.  On user data whose four fields are absent or scalars
    ([null], a boolean, a number, a string) the method ends in one of
    four ways: it returns, or it throws one of its three errors.  In
    particular reading [password.length] never fails there: a missing
    password is caught by the first check. *)
Theorem validateUserData_outcomes (o : obj) :
  validateUserData o = Normal tt \/
  validateUserData o = Throw required_error \/
  validateUserData o = Throw email_error \/
  validateUserData o = Throw password_error.
Proof.
  rewrite validateUserData_cases.
  repeat match goal with
         | |- context [if ?b then _ else _] => destruct b
         | |- context [match ?v with VStr _ => _ | _ => _ end] => destruct v
         end; auto.
Qed.

(** X4.  When the four fields are strings, the method returns exactly
    when name and surname are not empty, the email has the shape
    [local@domain.tld] and the password has eight characters or
    more. *)
Theorem validateUserData_strings (o : obj) (nm sn em pw : string) :
  get "name" o = VStr nm -> get "surname" o = VStr sn ->
  get "email" o = VStr em -> get "password" o = VStr pw ->
  validateUserData o = Normal tt
  <-> nm <> "" /\ sn <> "" /\ email_shape em /\ (8 <= String.length pw)%nat.
Proof.
  intros Hn Hs He Hp. rewrite validateUserData_cases, Hn, Hs, He, Hp.
  rewrite <- emailRegex_shape. unfold emailRegex_test. cbn [to_string truthy].
  split.
  - destruct (String.eqb_spec nm ""), (String.eqb_spec sn ""),
      (String.eqb_spec em ""), (String.eqb_spec pw ""); simpl;
      try discriminate.
    destruct (matches emailRegex em); simpl; try discriminate.
    destruct (Nat.ltb_spec (String.length pw) 8); try discriminate.
    intros _. repeat split; assumption.
  - intros (Hnm & Hsn & Hem & Hpw).
    assert (Hne : em <> "").
    { intros ->. vm_compute in Hem. discriminate. }
    assert (Hpne : pw <> "").
    { intros ->. simpl in Hpw. lia. }
    destruct (String.eqb_spec nm ""), (String.eqb_spec sn ""),
      (String.eqb_spec em ""), (String.eqb_spec pw ""); try contradiction.
    simpl. rewrite Hem. simpl.
    destruct (Nat.ltb_spec (String.length pw) 8); [lia | reflexivity].
Qed.

(** X5.  A password that is a number or a boolean is never rejected
    for its length, since it has no [length]: with name, surname and
    email in order, any number other than zero and the boolean [true]
    pass as a password. *)
Theorem validateUserData_password_not_string (o : obj) :
  (exists n, get "password" o = VNum n) \/
  (exists b, get "password" o = VBool b) ->
  validateUserData o <> Throw password_error /\
  (truthy (get "name" o) && truthy (get "surname" o)
     && truthy (get "email" o) && truthy (get "password" o) = true ->
   emailRegex_test (get "email" o) = true ->
   validateUserData o = Normal tt).
Proof.
  intros Hp. rewrite validateUserData_cases. split.
  - repeat match goal with
           | |- context [if ?b then _ else _] => destruct b
           end; try discriminate.
    destruct Hp as [[n ->]|[b ->]]; discriminate.
  - intros -> ->. simpl.
    destruct Hp as [[n ->]|[b ->]]; reflexivity.
Qed.

(** X6.  An email that is not a string is never accepted: [undefined],
    [null], [false] and zero count as missing, and the string form of
    any other number or of [true] has no [@]. *)
Theorem validateUserData_email_not_string (o : obj) :
  match get "email" o with VStr _ => False | _ => True end ->
  validateUserData o = Throw required_error \/
  validateUserData o = Throw email_error.
Proof.
  intros He. rewrite validateUserData_cases.
  rewrite (emailRegex_test_not_string _ He).
  destruct (negb _); auto.
Qed.

(** The theorems above at sample registrations. *)

Lemma accepted_email_facts_witness :
  all_chars not_space "a@b.com" = true /\ count_char "@" "a@b.com" = 1%nat /\
  (5 <= String.length "a@b.com")%nat.
Proof. exact (accepted_email_facts "a@b.com" eq_refl). Defined.

Lemma validateUserData_strings_witness :
  validateUserData Sample.alice = Normal tt
  <-> "A" <> "" /\ "B" <> "" /\ email_shape "a@b.com" /\
      (8 <= String.length "longenough")%nat.
Proof.
  exact (validateUserData_strings Sample.alice "A" "B" "a@b.com" "longenough"
           eq_refl eq_refl eq_refl eq_refl).
Defined.

Lemma validateUserData_password_not_string_witness :
  validateUserData
    [("name", VStr "A"); ("surname", VStr "B"); ("email", VStr "a@b.com");
     ("password", VNum 1)]
  = Normal tt.
Proof.
  exact (proj2
           (validateUserData_password_not_string
              [("name", VStr "A"); ("surname", VStr "B");
               ("email", VStr "a@b.com"); ("password", VNum 1)]
              (or_introl (ex_intro _ 1 eq_refl)))
           eq_refl eq_refl).
Defined.

Lemma validateUserData_email_not_string_witness :
  let o := [("name", VStr "A"); ("surname", VStr "B"); ("email", VNum 42);
            ("password", VStr "longenough")] in
  validateUserData o = Throw required_error \/
  validateUserData o = Throw email_error.
Proof.
  exact (validateUserData_email_not_string
           [("name", VStr "A"); ("surname", VStr "B"); ("email", VNum 42);
            ("password", VStr "longenough")] I).
Defined.

End Validation.

(** * More on login *)

Module LoginCases.

Import UserController Statements LoginFacts.

Section Cases.

Context {User Store : Type} `{UM : UserModel User Store}.
Variable env : Env.

(** [login], with the token of the "1h" time span written out. *)
Lemma login_cases (now_ms : Z) (st : Store) (req : Request) :
  login env now_ms st req
  = match req_body req with
    | None =>
        Throw (TypeError
          "Cannot destructure property 'email' of 'req.body' as it is undefined.")
    | Some b =>
        match validateUser env (get "email" b) (get "password" b) st with
        | Throw e => Throw e
        | Normal None => Normal (invalid_credentials, req_session req)
        | Normal (Some u) =>
            if env_is (TYPEAUTH env) "JWT" then
              Normal
                (respond 200
                   [("token",
                     JJwt {| jwt_claims :=
                               Jsonwebtoken.serialised
                                 [("id", or_else (user_id u) (user__id u));
                                  ("email", user_email u);
                                  ("iat", VNum (now_ms / 1000));
                                  ("exp", VNum (now_ms / 1000 + 3600))];
                             jwt_key := env_or (JWTSECRET env) "defaultsecret" |})],
                 req_session req)
            else if env_is (TYPEAUTH env) "session" then
              Normal
                (respond 200 (json_of [("message", VStr "Logged in successfully")]),
                 {| csrfSecret := csrfSecret (req_session req);
                    user := Some (identity u) |})
            else
              Normal
                (respond 500 (json_of [("error", VStr "Invalid authentication type")]),
                 req_session req)
        end
    end.
Proof.
  unfold login. destruct (req_body req) as [b|]; [|reflexivity].
  destruct (validateUser env (get "email" b) (get "password" b) st)
    as [[u|]|e]; reflexivity.
Qed.

Lemma validateUser_throws (st : Store) (email password : value) (e : error) :
  validateUser env email password st = Throw e
  <-> find_by_email env email st = Throw e \/
      exists u, find_by_email env email st = Normal (Some u) /\
                comparePassword u password = Throw e.
Proof.
  unfold validateUser.
  destruct (find_by_email env email st) as [[u|]|e'] eqn:Hf.
  - destruct (comparePassword u password) as [[|]|e''] eqn:Hc; split;
      try discriminate.
    + intros [H|(u' & [= <-] & H)]; [discriminate | congruence].
    + intros [H|(u' & [= <-] & H)]; [discriminate | congruence].
    + intros [= ->]. right. exists u. auto.
    + intros [H|(u' & [= <-] & H)]; [discriminate | congruence].
  - split; [discriminate|]. intros [H|(u' & H & _)]; discriminate.
  - split.
    + intros [= ->]. left. reflexivity.
    + intros [[= ->]|(u' & H & _)]; [reflexivity | discriminate].
Qed.

End Cases.

End LoginCases.

Module LoginProps.

Import UserController Statements LoginFacts LoginCases Sample CredentialStore.

Section Props.

Context {User Store : Type} `{UM : UserModel User Store}.
Variable env : Env.

(** X7.  The promise of [login] is rejected, and no response is sent,
    in exactly three cases: the request has no body (a TypeError),
    the lookup of the user is rejected, or the password comparison of
    the record found is rejected; in the last two the error is the
    store's own.  A store failure is thus never answered with 401. *)
Theorem login_rejection (now_ms : Z) (st : Store) (req : Request) (e : error) :
  login env now_ms st req = Throw e
  <-> (req_body req = None /\
       e = TypeError
             "Cannot destructure property 'email' of 'req.body' as it is undefined.")
      \/ exists b, req_body req = Some b /\
           (find_by_email env (get "email" b) st = Throw e \/
            exists u, find_by_email env (get "email" b) st = Normal (Some u) /\
                      comparePassword u (get "password" b) = Throw e).
Proof.
  rewrite login_cases. destruct (req_body req) as [b|].
  - pose proof (validateUser_throws env st (get "email" b) (get "password" b) e)
      as Hthrow.
    destruct (validateUser env (get "email" b) (get "password" b) st)
      as [[u|]|e'] eqn:Hv.
    + split.
      * destruct (env_is (TYPEAUTH env) "JWT"), (env_is (TYPEAUTH env) "session");
          discriminate.
      * intros [[H _]|(b' & [= <-] & H)]; [discriminate|].
        apply Hthrow in H. discriminate.
    + split; [discriminate|].
      intros [[H _]|(b' & [= <-] & H)]; [discriminate|].
      apply Hthrow in H. discriminate.
    + split.
      * intros [= ->]. right. exists b. split; [reflexivity|].
        apply Hthrow. reflexivity.
      * intros [[H _]|(b' & [= <-] & H)]; [discriminate|].
        apply Hthrow in H. injection H as ->. reflexivity.
  - split.
    + intros [= <-]. left. auto.
    + intros [[_ ->]|(b & H & _)]; [reflexivity | discriminate].
Qed.

(** X8.  A response of [login] carries a token only in token mode and
    only for a user who was found under the email of the request and
    whose record accepted the password of the request; the token's
    [id] and [email] are that user's, and the session is left as it
    was. *)
Theorem login_token_requires_password
    (now_ms : Z) (st : Store) (req : Request) (r : Response) (s : Session)
    (v : jsonv) :
  login env now_ms st req = Normal (r, s) ->
  In ("token", v) (body r) ->
  exists b u t,
    req_body req = Some b /\
    TYPEAUTH env = Some "JWT" /\
    find_by_email env (get "email" b) st = Normal (Some u) /\
    comparePassword u (get "password" b) = Normal true /\
    v = JJwt t /\
    get "id" (Jsonwebtoken.decode t) = or_else (user_id u) (user__id u) /\
    get "email" (Jsonwebtoken.decode t) = user_email u /\
    s = req_session req.
Proof.
  rewrite login_cases. destruct (req_body req) as [b|]; [|discriminate].
  destruct (validateUser env (get "email" b) (get "password" b) st)
    as [[u|]|e] eqn:Hv; [| |discriminate].
  - apply validateUser_some in Hv as [Hf Hc].
    destruct (env_is (TYPEAUTH env) "JWT") eqn:Hj.
    + intros [= <- <-] [[= <-]|[]]. apply env_is_true in Hj.
      pose proof (token_claims (or_else (user_id u) (user__id u)) (user_email u)
                    (now_ms / 1000) (now_ms / 1000 + 3600))
        as (Hid & Hemail & _).
      eexists b, u, _. repeat split; try eassumption; try reflexivity.
    + destruct (env_is (TYPEAUTH env) "session");
        intros [= <- <-] [[=]|[]].
  - intros [= <- <-] [[=]|[]].
Qed.

(** X9.  [login] never changes the CSRF secret of the session, and it
    changes the session at all only in session mode and only to the
    identity of a user who was found under the email of the request and
    whose record accepted the password of the request. *)
Theorem login_session_requires_password
    (now_ms : Z) (st : Store) (req : Request) (r : Response) (s : Session) :
  login env now_ms st req = Normal (r, s) ->
  csrfSecret s = csrfSecret (req_session req) /\
  (s = req_session req \/
   exists b u,
     req_body req = Some b /\
     TYPEAUTH env = Some "session" /\
     find_by_email env (get "email" b) st = Normal (Some u) /\
     comparePassword u (get "password" b) = Normal true /\
     user s = Some (identity u)).
Proof.
  rewrite login_cases. destruct (req_body req) as [b|]; [|discriminate].
  destruct (validateUser env (get "email" b) (get "password" b) st)
    as [[u|]|e] eqn:Hv; [| |discriminate].
  - apply validateUser_some in Hv as [Hf Hc].
    destruct (env_is (TYPEAUTH env) "JWT") eqn:Hj.
    + intros [= <- <-]. auto.
    + destruct (env_is (TYPEAUTH env) "session") eqn:Hs; intros [= <- <-].
      * apply env_is_true in Hs. split; [reflexivity|]. right.
        exists b, u. repeat split; assumption.
      * auto.
  - intros [= <- <-]. auto.
Qed.

(** X10.  Whenever [login] answers, the status tells what happened:
    401 for rejected credentials and for nothing else, whatever the
    authentication mode; 200 for accepted credentials in one of the two
    modes; 500 for accepted credentials in any other mode.  The
    credentials are checked before the mode is looked at. *)
Theorem login_status
    (now_ms : Z) (st : Store) (req : Request) (b : obj) (r : Response)
    (s : Session) :
  req_body req = Some b ->
  login env now_ms st req = Normal (r, s) ->
  let accepted :=
    exists u, validateUser env (get "email" b) (get "password" b) st
              = Normal (Some u) in
  (status r = 401 /\ rejected env st (get "email" b) (get "password" b)) \/
  (status r = 200 /\ accepted /\
   (TYPEAUTH env = Some "JWT" \/ TYPEAUTH env = Some "session")) \/
  (status r = 500 /\ accepted /\
   TYPEAUTH env <> Some "JWT" /\ TYPEAUTH env <> Some "session").
Proof.
  intros Hb. rewrite login_cases, Hb.
  destruct (validateUser env (get "email" b) (get "password" b) st)
    as [[u|]|e] eqn:Hv; [| |discriminate].
  - destruct (env_is (TYPEAUTH env) "JWT") eqn:Hj.
    + intros [= <- <-]. right. left. apply env_is_true in Hj. eauto.
    + destruct (env_is (TYPEAUTH env) "session") eqn:Hs; intros [= <- <-].
      * right. left. apply env_is_true in Hs. eauto.
      * right. right. apply env_is_false in Hj, Hs. eauto.
  - intros [= <- <-]. left. split; [reflexivity|].
    apply validateUser_null. exact Hv.
Qed.

(** X11.  Every token [login] issues is signed with [JWTSECRET], and
    with the literal "defaultsecret" when that variable is unset or
    empty. *)
Theorem login_token_secret
    (now_ms : Z) (st : Store) (req : Request) (r : Response) (s : Session)
    (t : Jwt) :
  login env now_ms st req = Normal (r, s) ->
  In ("token", JJwt t) (body r) ->
  match JWTSECRET env with
  | None => jwt_key t = "defaultsecret"
  | Some k => jwt_key t = if String.eqb k "" then "defaultsecret" else k
  end.
Proof.
  rewrite login_cases. destruct (req_body req) as [b|]; [|discriminate].
  destruct (validateUser env (get "email" b) (get "password" b) st)
    as [[u|]|e] eqn:Hv; [| |discriminate].
  - destruct (env_is (TYPEAUTH env) "JWT") eqn:Hj.
    + intros [= <- <-] [[= <-]|[]]. simpl. unfold env_or.
      destruct (JWTSECRET env); reflexivity.
    + destruct (env_is (TYPEAUTH env) "session");
        intros [= <- <-] [[=]|[]].
  - intros [= <- <-] [[=]|[]].
Qed.

(** X12.  With a [DB_TYPE] that is neither "mongo" nor "mysql" the
    lookup of [validateUser] is skipped: the store is not consulted and
    every login that has a body is answered 401, whatever the
    credentials and the authentication mode. *)
Theorem login_without_db_type
    (now_ms : Z) (st : Store) (req : Request) (b : obj) :
  DB_TYPE env <> Some "mongo" ->
  DB_TYPE env <> Some "mysql" ->
  req_body req = Some b ->
  login env now_ms st req = Normal (invalid_credentials, req_session req).
Proof.
  intros Hm Hy Hb. rewrite login_cases, Hb.
  unfold validateUser, find_by_email.
  apply env_is_false in Hm, Hy. rewrite Hm, Hy. reflexivity.
Qed.

End Props.

(** The theorems above at the scenario of the spec. *)

Lemma login_token_requires_password_witness :
  exists b u t,
    req_body (post "/login" (Some (credentials "a@b.com" "longenough"))) = Some b /\
    find_by_email (UM := store_model) (env_of "mongo" "JWT") (get "email" b)
      [alice_record] = Normal (Some u) /\
    comparePassword (UserModel := store_model) u (get "password" b) = Normal true /\
    get "email" (Jsonwebtoken.decode t) = user_email (UserModel := store_model) u.
Proof.
  destruct
    (login_token_requires_password (UM := store_model) (env_of "mongo" "JWT") 0
       [alice_record]
       (post "/login" (Some (credentials "a@b.com" "longenough")))
       _ _ _ eq_refl (or_introl eq_refl))
    as (b & u & t & Hb & _ & Hf & Hc & _ & _ & He & _).
  exists b, u, t. auto.
Defined.

Lemma login_session_requires_password_witness :
  let req := post "/login" (Some (credentials "a@b.com" "longenough")) in
  csrfSecret
    {| csrfSecret := csrfSecret (req_session req);
       user := Some (identity (UM := store_model) alice_record) |}
  = csrfSecret (req_session req).
Proof.
  exact
    (proj1
       (login_session_requires_password (UM := store_model)
          (env_of "mongo" "session") 0 [alice_record]
          (post "/login" (Some (credentials "a@b.com" "longenough")))
          _ _ eq_refl)).
Defined.

Lemma login_status_witness :
  let b := credentials "a@b.com" "wrong" in
  (401 = 401 /\
   rejected (UM := store_model) (env_of "mongo" "JWS") [alice_record]
     (get "email" b) (get "password" b)) \/
  (401 = 200 /\
   (exists u, validateUser (UM := store_model) (env_of "mongo" "JWS")
                (get "email" b) (get "password" b) [alice_record]
              = Normal (Some u)) /\
   (Some "JWS" = Some "JWT" \/ Some "JWS" = Some "session")) \/
  (401 = 500 /\
   (exists u, validateUser (UM := store_model) (env_of "mongo" "JWS")
                (get "email" b) (get "password" b) [alice_record]
              = Normal (Some u)) /\
   Some "JWS" <> Some "JWT" /\ Some "JWS" <> Some "session").
Proof.
  exact
    (login_status (UM := store_model) (env_of "mongo" "JWS") 0 [alice_record]
       (post "/login" (Some (credentials "a@b.com" "wrong")))
       (credentials "a@b.com" "wrong") _ _ eq_refl eq_refl).
Defined.

Lemma login_token_secret_witness :
  jwt_key {| jwt_claims :=
               [("id", VNum 1); ("email", VStr "a@b.com");
                ("iat", VNum 0); ("exp", VNum 3600)];
             jwt_key := "defaultsecret" |}
  = "defaultsecret".
Proof.
  exact
    (login_token_secret (UM := store_model) (env_of "mongo" "JWT") 0
       [alice_record]
       (post "/login" (Some (credentials "a@b.com" "longenough")))
       _ _ _ eq_refl (or_introl eq_refl)).
Defined.

Lemma login_without_db_type_witness :
  login (UM := store_model)
    {| DB_TYPE := None; TYPEAUTH := Some "JWT"; JWTSECRET := None;
       NODE_ENV := None |}
    0 [alice_record]
    (post "/login" (Some (credentials "a@b.com" "longenough")))
  = Normal (invalid_credentials, no_session).
Proof.
  refine
    (login_without_db_type (UM := store_model)
       {| DB_TYPE := None; TYPEAUTH := Some "JWT"; JWTSECRET := None;
          NODE_ENV := None |}
       0 [alice_record]
       (post "/login" (Some (credentials "a@b.com" "longenough")))
       _ _ _ eq_refl); simpl; discriminate.
Defined.

End LoginProps.

(** * More on the CSRF set-up *)

Module CsrfProps.

Import Express CsrfCsrf Crypto CsrfFacts Notions.

(** Both digits of a byte are in [0-9a-f]. *)
Lemma hex_byte_lower (b : Byte.byte) :
  is_lower_hex (hex_digit (Byte.to_N b / 16))
  && is_lower_hex (hex_digit (Byte.to_N b mod 16)) = true.
Proof. destruct b; vm_compute; reflexivity. Qed.

Lemma hex_lower (bs : list Byte.byte) :
  Regex.all_chars is_lower_hex (hex bs) = true.
Proof.
  induction bs as [|b bs IH]; [reflexivity|].
  cbn [hex Regex.all_chars]. rewrite IH, andb_true_r. apply hex_byte_lower.
Qed.

Section Props.

Context {User Store : Type} `{UM : UserModel User Store}.
Variable env : Env.
Variable validateRequest : value -> Request -> bool.
Variable generateToken : value -> Request -> string.

Local Abbreviation Ctx := (App.Ctx (Store := Store)).

(** The error of reading [req.cookies["csrf-token"]] while
    [req.cookies] is [undefined]. *)
Lemma cookie_read_throws (req : Request) :
  getCsrfCookieFromRequest (App.csrfOptions env) (App.req_cookies req)
  = Throw (TypeError "Cannot read properties of undefined (reading 'csrf-token')").
Proof. reflexivity. Qed.

Lemma csrfProtection_cases (c : Ctx) :
  App.csrfProtection env validateRequest c
  = (c, if is_ignored (App.csrfOptions env) (req_method (App.ctx_req c))
        then Next
        else NextErr (plain_error
               (TypeError
                  "Cannot read properties of undefined (reading 'csrf-token')"))).
Proof.
  unfold App.csrfProtection, doubleCsrfProtection, CsrfCsrf.validateRequest.
  rewrite cookie_read_throws. reflexivity.
Qed.


(** X13.  In the application no layer parses cookies, so the guard as
    registered by [setupCSRFProtection] decides by the method alone: a
    GET, HEAD or OPTIONS request is passed on; for any other request,
    whatever proof it carries, the read of the cookie throws and that
    TypeError, not the 403 error of the guard, is handed to [next]. *)
Theorem doubleCsrfProtection_decision (c : Ctx) :
  let m := req_method (App.ctx_req c) in
  let thrown :=
    plain_error
      (TypeError "Cannot read properties of undefined (reading 'csrf-token')") in
  let safe := m = "GET" \/ m = "HEAD" \/ m = "OPTIONS" in
  (safe -> App.csrfProtection env validateRequest c = (c, Next)) /\
  (~ safe -> App.csrfProtection env validateRequest c = (c, NextErr thrown)) /\
  ne_status thrown = None /\
  ne_status invalidCsrfTokenError = Some 403.
Proof.
  intros m thrown safe. rewrite csrfProtection_cases.
  pose proof (is_ignored_safe env m) as Hsafe. fold m.
  destruct (is_ignored (App.csrfOptions env) m).
  - repeat split. intros Hn. exfalso. apply Hn. apply Hsafe. reflexivity.
  - repeat split. intros Hs. apply Hsafe in Hs. discriminate.
Qed.

(** X14.  Whatever the bootstrap middleware does, the session it hands
    on holds a secret: the guard and the token generator, which read
    [req.session.csrfSecret], never get a missing one. *)
Theorem csrfBootstrap_secret_present (c c1 : Ctx) (sg : signal) :
  App.csrfBootstrap c = (c1, sg) ->
  truthy (getSecret (App.csrfOptions env) (App.ctx_req c1)) = true.
Proof.
  rewrite csrfBootstrap_unfold.
  destruct (truthy (csrfSecret (req_session (App.ctx_req c)))) eqn:Hs.
  - intros [= <- <-]. exact Hs.
  - cbv zeta. unfold App.session_save.
    cbn [App.set_session App.set_rng App.ctx_set_errors].
    assert (Ht : truthy (VStr (hex (fst (randomBytes 32 (App.ctx_rng c))))) = true).
    { apply hex_truthy. intros Hnil.
      pose proof (randomBytes_length 32 (App.ctx_rng c)) as Hlen.
      rewrite Hnil in Hlen. discriminate. }
    destruct (App.ctx_set_errors c) as [|[e|] rest]; intros [= <- <-]; exact Ht.
Qed.

(** The secret the bootstrap middleware gives a session that has
    none, and what it draws from the generator for it. *)
Lemma csrfBootstrap_new_secret (c c1 : Ctx) (sg : signal) :
  truthy (csrfSecret (req_session (App.ctx_req c))) = false ->
  App.csrfBootstrap c = (c1, sg) ->
  csrfSecret (req_session (App.ctx_req c1))
  = VStr (hex (map (rng_bytes (App.ctx_rng c)) (seq (rng_pos (App.ctx_rng c)) 32))) /\
  rng_pos (App.ctx_rng c1) = (rng_pos (App.ctx_rng c) + 32)%nat /\
  rng_bytes (App.ctx_rng c1) = rng_bytes (App.ctx_rng c).
Proof.
  intros Hs. rewrite csrfBootstrap_unfold, Hs. cbv zeta.
  unfold App.session_save.
  cbn [App.set_session App.set_rng App.ctx_set_errors].
  destruct (App.ctx_set_errors c) as [|[e|] rest]; intros [= <- _];
    repeat split.
Qed.

(** X15.  A secret the bootstrap middleware creates is a string of 64
    characters from [0-9a-f], made of the next 32 bytes of the
    generator, which advances by 32; for a session that has a secret
    the generator is not touched. *)
Theorem csrfBootstrap_secret_format (c c1 : Ctx) (sg : signal) :
  App.csrfBootstrap c = (c1, sg) ->
  if truthy (csrfSecret (req_session (App.ctx_req c))) then
    App.ctx_rng c1 = App.ctx_rng c
  else
    let bytes :=
      map (rng_bytes (App.ctx_rng c)) (seq (rng_pos (App.ctx_rng c)) 32) in
    csrfSecret (req_session (App.ctx_req c1)) = VStr (hex bytes) /\
    String.length (hex bytes) = 64%nat /\
    Regex.all_chars is_lower_hex (hex bytes) = true /\
    rng_pos (App.ctx_rng c1) = (rng_pos (App.ctx_rng c) + 32)%nat /\
    rng_bytes (App.ctx_rng c1) = rng_bytes (App.ctx_rng c).
Proof.
  intros H.
  destruct (truthy (csrfSecret (req_session (App.ctx_req c)))) eqn:Hs.
  - rewrite csrfBootstrap_present in H by exact Hs.
    injection H as <- _. reflexivity.
  - destruct (csrfBootstrap_new_secret c c1 sg Hs H) as (Hsec & Hpos & Hbytes).
    cbv zeta. split; [exact Hsec|]. split; [|split; [apply hex_lower|auto]].
    rewrite hex_length, length_map, length_seq. reflexivity.
Qed.

(** X16.  Two sessions bootstrapped one after the other get the same
    secret only if the generator repeats itself: their secrets are
    equal exactly when the 32 bytes drawn for the first equal the 32
    bytes that follow them. *)
Theorem successive_secrets (c c' c1 c1' : Ctx) (sg sg' : signal) :
  truthy (csrfSecret (req_session (App.ctx_req c))) = false ->
  truthy (csrfSecret (req_session (App.ctx_req c'))) = false ->
  App.csrfBootstrap c = (c1, sg) ->
  App.ctx_rng c' = App.ctx_rng c1 ->
  App.csrfBootstrap c' = (c1', sg') ->
  csrfSecret (req_session (App.ctx_req c1))
  = csrfSecret (req_session (App.ctx_req c1'))
  <-> forall i, (i < 32)%nat ->
        rng_bytes (App.ctx_rng c) (rng_pos (App.ctx_rng c) + i)%nat
        = rng_bytes (App.ctx_rng c) (rng_pos (App.ctx_rng c) + 32 + i)%nat.
Proof.
  intros Hs Hs' Hb Hrng Hb'.
  destruct (csrfBootstrap_new_secret c c1 sg Hs Hb) as (-> & Hpos & Hbytes).
  destruct (csrfBootstrap_new_secret c' c1' sg' Hs' Hb') as (-> & _).
  rewrite Hrng, Hpos, Hbytes. split.
  - intros Hsecret i Hi.
    assert (Heq : hex (map (rng_bytes (App.ctx_rng c))
                         (seq (rng_pos (App.ctx_rng c)) 32))
                  = hex (map (rng_bytes (App.ctx_rng c))
                           (seq (rng_pos (App.ctx_rng c) + 32) 32)))
      by congruence.
    apply hex_inj in Heq.
    apply (f_equal (fun l => l !! i)) in Heq.
    rewrite !list_lookup_fmap, !lookup_seq_lt in Heq by exact Hi.
    injection Heq as Heq. exact Heq.
  - intros Hall. do 2 f_equal.
    apply list_eq. intros i. rewrite !list_lookup_fmap.
    destruct (decide (i < 32)%nat) as [Hi|Hi].
    + rewrite !lookup_seq_lt by exact Hi. simpl. f_equal. apply Hall. exact Hi.
    + rewrite !lookup_seq_ge by lia. reflexivity.
Qed.



End Props.

Import Sample.

(** The theorems above at a first request of a session; the sample
    generator hands out zero bytes only. *)

Lemma csrfBootstrap_secret_present_witness :
  truthy (VStr zero_secret) = true.
Proof.
  exact
    (csrfBootstrap_secret_present (env_of "mongo" "session")
       (arriving (post "/login" None) no_session)
       (fst (App.csrfBootstrap (arriving (post "/login" None) no_session)))
       (snd (App.csrfBootstrap (arriving (post "/login" None) no_session)))
       eq_refl).
Defined.

Lemma csrfBootstrap_secret_format_witness :
  String.length zero_secret = 64%nat /\
  Regex.all_chars is_lower_hex zero_secret = true.
Proof.
  pose proof
    (csrfBootstrap_secret_format
       (arriving (post "/login" None) no_session)
       (fst (App.csrfBootstrap (arriving (post "/login" None) no_session)))
       (snd (App.csrfBootstrap (arriving (post "/login" None) no_session)))
       eq_refl) as H.
  cbv zeta in H.
  change (truthy _) with false in H. cbv iota in H.
  destruct H as (_ & Hlen & Hchars & _).
  split; [exact Hlen | exact Hchars].
Defined.

Lemma successive_secrets_witness :
  let c := arriving (post "/login" None) no_session in
  let c1 := fst (App.csrfBootstrap c) in
  let c' := App.set_rng (App.ctx_rng c1) c in
  let c1' := fst (App.csrfBootstrap c') in
  csrfSecret (req_session (App.ctx_req c1))
  = csrfSecret (req_session (App.ctx_req c1'))
  <-> forall i, (i < 32)%nat -> Byte.x00 = Byte.x00.
Proof.
  intros c c1 c' c1'.
  exact
    (successive_secrets c c' c1 c1' (snd (App.csrfBootstrap c))
       (snd (App.csrfBootstrap c')) eq_refl eq_refl eq_refl eq_refl eq_refl).
Defined.

End CsrfProps.

(** * Loading the model and starting the server *)

Module BootProps.

Import LoginFacts.

(** X18.  The controller module gets its model exactly when [DB_TYPE]
    is "mongo" or "mysql" and the import of that model's file
    succeeds; the other file is not looked at.  Every failure, an
    import that throws as well as any other [DB_TYPE], surfaces as the
    one error "Failed to load user model"; its cause is only logged. *)
Theorem loadUserModel_outcome {M : Type} (env : Env)
    (importMongo importMysql : completion M) :
  match ModelLoader.loadUserModel env importMongo importMysql with
  | (Normal m, logged) =>
      logged = [] /\
      ((DB_TYPE env = Some "mongo" /\ importMongo = Normal m) \/
       (DB_TYPE env = Some "mysql" /\ importMysql = Normal m))
  | (Throw e, logged) =>
      e = mkError "Failed to load user model" /\
      exists cause,
        logged = [cause] /\
        ((DB_TYPE env = Some "mongo" /\ importMongo = Throw cause) \/
         (DB_TYPE env = Some "mysql" /\ importMysql = Throw cause) \/
         (DB_TYPE env <> Some "mongo" /\ DB_TYPE env <> Some "mysql" /\
          cause = mkError ModelLoader.invalid_db_type))
  end.
Proof.
  unfold ModelLoader.loadUserModel, ModelLoader.load_try.
  destruct (env_is (DB_TYPE env) "mongo") eqn:Hm.
  - apply env_is_true in Hm.
    destruct importMongo as [m|e]; [auto|].
    split; [reflexivity|]. exists e. auto.
  - destruct (env_is (DB_TYPE env) "mysql") eqn:Hy.
    + apply env_is_true in Hy.
      destruct importMysql as [m|e]; [auto|].
      split; [reflexivity|]. exists e. auto.
    + apply env_is_false in Hm, Hy.
      split; [reflexivity|]. eexists. split; [reflexivity|]. auto.
Qed.

Section Boot.

Context {User Store : Type} `{UM : UserModel User Store}.
Variable env : Env.
Variable validateRequest : value -> Request -> bool.
Variable generateToken : value -> Request -> string.
Variable DBCONNECTIONSTRING : option string.
Variable dirname : string.
Variable connect : string -> completion unit.


End Boot.

End BootProps.
